(** * Kando: the input tracker of the pie menu

    A shallow embedding of [src/renderer/menu/input-tracker.ts], followed by
    one of the icon theme registry.

    - JavaScript numbers are IEEE 754 binary64 values: they are modelled by
      Rocq's primitive floats, so that [<] and [>] behave on NaN exactly as
      the source's comparisons do.
    - [this] is an explicit [InputTracker] record threaded through every
      method; a method either completes normally with the new record and the
      notifications it emitted, or throws a [TypeError].
    - The vector helpers of [renderer/math.ts] are imported by the tracker and
      kept abstract: the tracker is parameterised by a [MathModule]. *)

From Stdlib Require Import Floats ZArith List Bool Lia.
From Stdlib Require Import String.
Import ListNotations.

Local Open Scope string_scope.
Local Open Scope list_scope.

Local Open Scope bool_scope.

(** ** Numbers *)

(** JavaScript's [a > b] on numbers: true exactly when [b < a], false as soon
    as one side is NaN. *)
Definition gtb (a b : float) : bool := PrimFloat.ltb b a.

(** ** Data model *)

(** [IVec2] of [common]: a point or a vector of the screen. *)
Record IVec2 : Type := vec2 { x : float; y : float }.

(** The part of [renderer/math.ts] the tracker calls. *)
Record MathModule : Type := {
  subtract : IVec2 -> IVec2 -> IVec2;
  getLength : IVec2 -> float;
  getDistance : IVec2 -> IVec2 -> float;
  getAngle : IVec2 -> float
}.

(** [enum InputState]. *)
Inductive InputState : Type :=
| eReleased
| eClicked
| eMarkingMode
| eTurboMode.

Definition InputState_eqb (a b : InputState) : bool :=
  match a, b with
  | eReleased, eReleased | eClicked, eClicked
  | eMarkingMode, eMarkingMode | eTurboMode, eTurboMode => true
  | _, _ => false
  end.

(** The modifier flags every DOM mouse, touch and keyboard event carries. *)
Record Modifiers : Type := {
  ctrlKey : bool;
  metaKey : bool;
  shiftKey : bool;
  altKey : bool
}.

Definition noModifiers : Modifiers :=
  {| ctrlKey := false; metaKey := false; shiftKey := false; altKey := false |}.

(** [event.ctrlKey || event.metaKey || event.shiftKey || event.altKey] *)
Definition anyModifier (m : Modifiers) : bool :=
  ctrlKey m || metaKey m || shiftKey m || altKey m.

Record Touch : Type := { touchX : float; touchY : float }.

(** [MouseEvent | TouchEvent]: whatever is not a [MouseEvent] is read as a
    [TouchEvent] by the tracker. *)
Inductive PointerEvent : Type :=
| MouseEvent (clientX clientY : float) (buttons : Z) (mods : Modifiers)
| TouchEvent (touches : list Touch) (mods : Modifiers).

Definition eventModifiers (event : PointerEvent) : Modifiers :=
  match event with
  | MouseEvent _ _ _ m => m
  | TouchEvent _ m => m
  end.

Definition isMouseEvent (event : PointerEvent) : bool :=
  match event with
  | MouseEvent _ _ _ _ => true
  | TouchEvent _ _ => false
  end.

(** [event.buttons === 0], asked of mouse events only. *)
Definition noButtons (event : PointerEvent) : bool :=
  match event with
  | MouseEvent _ _ b _ => (b =? 0)%Z
  | TouchEvent _ _ => false
  end.

(** The coordinates both pointer handlers read: [clientX], [clientY] of a mouse
    event, of [touches[0]] otherwise.  [touches[0]] of an empty list is
    [undefined], and reading [clientX] of it throws: [None]. *)
Definition eventPosition (event : PointerEvent) : option IVec2 :=
  match event with
  | MouseEvent cx cy _ _ => Some (vec2 cx cy)
  | TouchEvent [] _ => None
  | TouchEvent (t :: _) _ => Some (vec2 (touchX t) (touchY t))
  end.

Record KeyboardEvent : Type := { keyModifiers : Modifiers }.

(** The fields of [class InputTracker]. [clickPosition] is assigned [null] by
    [onPointerUpEvent]: an [option]. *)
Record InputTracker : Type := {
  _state : InputState;
  _absolutePosition : IVec2;
  _relativePosition : IVec2;
  _angle : float;
  _distance : float;
  _deferredTurboMode : bool;
  clickPosition : option IVec2;
  keydownPosition : IVec2;
  anyKeyPressed : bool;
  ignoreMotionEvents : Z;
  dragThreshold : float;
  enableMarkingMode : bool;
  enableTurboMode : bool
}.

(** [new InputTracker()]: the field initialisers. *)
Definition newInputTracker : InputTracker := {|
  _state := eReleased;
  _absolutePosition := vec2 0 0;
  _relativePosition := vec2 0 0;
  _angle := 0;
  _distance := 0;
  _deferredTurboMode := false;
  clickPosition := Some (vec2 0 0);
  keydownPosition := vec2 0 0;
  anyKeyPressed := false;
  ignoreMotionEvents := 0;
  dragThreshold := 15;
  enableMarkingMode := true;
  enableTurboMode := true
|}.

(** Field writes, [this.f = v]. *)
Definition set_state (s : InputState) (this : InputTracker) : InputTracker := {|
  _state := s;
  _absolutePosition := _absolutePosition this;
  _relativePosition := _relativePosition this;
  _angle := _angle this;
  _distance := _distance this;
  _deferredTurboMode := _deferredTurboMode this;
  clickPosition := clickPosition this;
  keydownPosition := keydownPosition this;
  anyKeyPressed := anyKeyPressed this;
  ignoreMotionEvents := ignoreMotionEvents this;
  dragThreshold := dragThreshold this;
  enableMarkingMode := enableMarkingMode this;
  enableTurboMode := enableTurboMode this
|}.

Definition set_clickPosition (c : option IVec2) (this : InputTracker) : InputTracker := {|
  _state := _state this;
  _absolutePosition := _absolutePosition this;
  _relativePosition := _relativePosition this;
  _angle := _angle this;
  _distance := _distance this;
  _deferredTurboMode := _deferredTurboMode this;
  clickPosition := c;
  keydownPosition := keydownPosition this;
  anyKeyPressed := anyKeyPressed this;
  ignoreMotionEvents := ignoreMotionEvents this;
  dragThreshold := dragThreshold this;
  enableMarkingMode := enableMarkingMode this;
  enableTurboMode := enableTurboMode this
|}.

Definition set_keydownPosition (p : IVec2) (this : InputTracker) : InputTracker := {|
  _state := _state this;
  _absolutePosition := _absolutePosition this;
  _relativePosition := _relativePosition this;
  _angle := _angle this;
  _distance := _distance this;
  _deferredTurboMode := _deferredTurboMode this;
  clickPosition := clickPosition this;
  keydownPosition := p;
  anyKeyPressed := anyKeyPressed this;
  ignoreMotionEvents := ignoreMotionEvents this;
  dragThreshold := dragThreshold this;
  enableMarkingMode := enableMarkingMode this;
  enableTurboMode := enableTurboMode this
|}.

Definition set_anyKeyPressed (b : bool) (this : InputTracker) : InputTracker := {|
  _state := _state this;
  _absolutePosition := _absolutePosition this;
  _relativePosition := _relativePosition this;
  _angle := _angle this;
  _distance := _distance this;
  _deferredTurboMode := _deferredTurboMode this;
  clickPosition := clickPosition this;
  keydownPosition := keydownPosition this;
  anyKeyPressed := b;
  ignoreMotionEvents := ignoreMotionEvents this;
  dragThreshold := dragThreshold this;
  enableMarkingMode := enableMarkingMode this;
  enableTurboMode := enableTurboMode this
|}.

Definition set_deferredTurboMode (b : bool) (this : InputTracker) : InputTracker := {|
  _state := _state this;
  _absolutePosition := _absolutePosition this;
  _relativePosition := _relativePosition this;
  _angle := _angle this;
  _distance := _distance this;
  _deferredTurboMode := b;
  clickPosition := clickPosition this;
  keydownPosition := keydownPosition this;
  anyKeyPressed := anyKeyPressed this;
  ignoreMotionEvents := ignoreMotionEvents this;
  dragThreshold := dragThreshold this;
  enableMarkingMode := enableMarkingMode this;
  enableTurboMode := enableTurboMode this
|}.

Definition set_ignoreMotionEvents (n : Z) (this : InputTracker) : InputTracker := {|
  _state := _state this;
  _absolutePosition := _absolutePosition this;
  _relativePosition := _relativePosition this;
  _angle := _angle this;
  _distance := _distance this;
  _deferredTurboMode := _deferredTurboMode this;
  clickPosition := clickPosition this;
  keydownPosition := keydownPosition this;
  anyKeyPressed := anyKeyPressed this;
  ignoreMotionEvents := n;
  dragThreshold := dragThreshold this;
  enableMarkingMode := enableMarkingMode this;
  enableTurboMode := enableTurboMode this
|}.

(** The three public configuration fields, written from outside the class. *)
Definition set_dragThreshold (v : float) (this : InputTracker) : InputTracker := {|
  _state := _state this;
  _absolutePosition := _absolutePosition this;
  _relativePosition := _relativePosition this;
  _angle := _angle this;
  _distance := _distance this;
  _deferredTurboMode := _deferredTurboMode this;
  clickPosition := clickPosition this;
  keydownPosition := keydownPosition this;
  anyKeyPressed := anyKeyPressed this;
  ignoreMotionEvents := ignoreMotionEvents this;
  dragThreshold := v;
  enableMarkingMode := enableMarkingMode this;
  enableTurboMode := enableTurboMode this
|}.

Definition set_enableMarkingMode (b : bool) (this : InputTracker) : InputTracker := {|
  _state := _state this;
  _absolutePosition := _absolutePosition this;
  _relativePosition := _relativePosition this;
  _angle := _angle this;
  _distance := _distance this;
  _deferredTurboMode := _deferredTurboMode this;
  clickPosition := clickPosition this;
  keydownPosition := keydownPosition this;
  anyKeyPressed := anyKeyPressed this;
  ignoreMotionEvents := ignoreMotionEvents this;
  dragThreshold := dragThreshold this;
  enableMarkingMode := b;
  enableTurboMode := enableTurboMode this
|}.

Definition set_enableTurboMode (b : bool) (this : InputTracker) : InputTracker := {|
  _state := _state this;
  _absolutePosition := _absolutePosition this;
  _relativePosition := _relativePosition this;
  _angle := _angle this;
  _distance := _distance this;
  _deferredTurboMode := _deferredTurboMode this;
  clickPosition := clickPosition this;
  keydownPosition := keydownPosition this;
  anyKeyPressed := anyKeyPressed this;
  ignoreMotionEvents := ignoreMotionEvents this;
  dragThreshold := dragThreshold this;
  enableMarkingMode := enableMarkingMode this;
  enableTurboMode := b
|}.

(** [get isDragging] *)
Definition isDragging (this : InputTracker) : bool :=
  InputState_eqb (_state this) eMarkingMode || InputState_eqb (_state this) eTurboMode.

(** What the [EventEmitter] hands to its listeners. *)
Inductive Emission : Type :=
| PointerMotion (position : IVec2).

(** How a method call ends: it returns, leaving the tracker [this'] and having
    emitted [emitted], or it throws.  The one throw of the class, reading
    [touches[0].clientX] without a touch point, comes before every write of the
    method it occurs in, so a throwing call leaves the tracker as it was. *)
Inductive Completion : Type :=
| Returns (this' : InputTracker) (emitted : list Emission)
| ThrowsTypeError.

Section Tracker.

Variable math : MathModule.

(** [update(position, activeItemPosition?)] *)
Definition update (this : InputTracker) (position : IVec2)
    (activeItemPosition : option IVec2) : InputTracker :=
  let activeItemPosition :=
    match activeItemPosition with Some a => a | None => position end in
  let relativePosition := subtract math position activeItemPosition in
  {| _state := _state this;
     _absolutePosition := position;
     _relativePosition := relativePosition;
     _angle := getAngle math relativePosition;
     _distance := getLength math relativePosition;
     _deferredTurboMode := _deferredTurboMode this;
     clickPosition := clickPosition this;
     keydownPosition := keydownPosition this;
     anyKeyPressed := anyKeyPressed this;
     ignoreMotionEvents := ignoreMotionEvents this;
     dragThreshold := dragThreshold this;
     enableMarkingMode := enableMarkingMode this;
     enableTurboMode := enableTurboMode this |}.

(** [this.clickPosition && math.getDistance(...) < this.dragThreshold], as a
    condition: [null] is falsy. *)
Definition inClickZone (this : InputTracker) : bool :=
  match clickPosition this with
  | None => false
  | Some c =>
      PrimFloat.ltb (getDistance math (_absolutePosition this) c) (dragThreshold this)
  end.

(** The body of [onMotionEvent] once the event is not ignored and its
    coordinates have been read: from the call of [update] to the last
    assignment of [_state]. *)
Definition motionUpdate (this : InputTracker) (position : IVec2)
    (event : PointerEvent) (activeItemPosition : option IVec2) : InputTracker :=
  let this := update this position activeItemPosition in
  let this :=
    if InputState_eqb (_state this) eClicked && negb (inClickZone this)
    then set_state (if enableMarkingMode this then eMarkingMode else eReleased) this
    else this in
  let shouldEnterTurboMode := false in
  let canEnterTurboMode :=
    enableTurboMode this && negb (_deferredTurboMode this)
    && negb (InputState_eqb (_state this) eTurboMode) in
  let shouldEnterTurboMode :=
    if canEnterTurboMode then
      let shouldEnterTurboMode :=
        if anyKeyPressed this
        then gtb (getDistance math (_absolutePosition this) (keydownPosition this))
                 (dragThreshold this)
        else shouldEnterTurboMode in
      if negb shouldEnterTurboMode
      then anyModifier (eventModifiers event)
      else shouldEnterTurboMode
    else shouldEnterTurboMode in
  if shouldEnterTurboMode then set_state eTurboMode this
  else if isMouseEvent event && InputState_eqb (_state this) eMarkingMode
          && noButtons event
  then set_state eReleased this
  else this.

(** [onMotionEvent(event, activeItemPosition)] *)
Definition onMotionEvent (this : InputTracker) (event : PointerEvent)
    (activeItemPosition : option IVec2) : Completion :=
  if (0 <? ignoreMotionEvents this)%Z then
    Returns (set_ignoreMotionEvents (ignoreMotionEvents this - 1) this) []
  else
    match eventPosition event with
    | None => ThrowsTypeError
    | Some position =>
        let this := motionUpdate this position event activeItemPosition in
        Returns this [PointerMotion (_absolutePosition this)]
    end.

(** [onPointerDownEvent(event, activeItemPosition)] *)
Definition onPointerDownEvent (this : InputTracker) (event : PointerEvent)
    (activeItemPosition : option IVec2) : Completion :=
  match eventPosition event with
  | None => ThrowsTypeError
  | Some position =>
      let this := set_clickPosition (Some position) this in
      let this := set_state eClicked this in
      onMotionEvent this event activeItemPosition
  end.

(** [onPointerUpEvent()] *)
Definition onPointerUpEvent (this : InputTracker) : InputTracker :=
  let this := set_state eReleased this in
  set_clickPosition None this.

(** [onKeyDownEvent()] *)
Definition onKeyDownEvent (this : InputTracker) : InputTracker :=
  if negb (_deferredTurboMode this) then
    let this := set_anyKeyPressed true this in
    set_keydownPosition
      (vec2 (x (_absolutePosition this)) (y (_absolutePosition this))) this
  else this.

(** [onKeyUpEvent(event)] *)
Definition onKeyUpEvent (this : InputTracker) (event : KeyboardEvent) : InputTracker :=
  let stillAnyModifierPressed := anyModifier (keyModifiers event) in
  if negb stillAnyModifierPressed then
    let this := set_anyKeyPressed false this in
    let this := set_deferredTurboMode false this in
    if InputState_eqb (_state this) eTurboMode then
      set_state
        (match clickPosition this with
         | Some _ => eMarkingMode
         | None => eReleased
         end) this
    else this
  else this.

(** [ignoreNextMotionEvents()] *)
Definition ignoreNextMotionEvents (this : InputTracker) : InputTracker :=
  set_ignoreMotionEvents 2 this.

(** ** Sessions *)

(** Everything a client of the class can do to a tracker. *)
Inductive Call : Type :=
| OnMotionEvent (event : PointerEvent) (activeItemPosition : option IVec2)
| OnPointerDownEvent (event : PointerEvent) (activeItemPosition : option IVec2)
| OnPointerUpEvent
| OnKeyDownEvent
| OnKeyUpEvent (event : KeyboardEvent)
| Update (position : IVec2) (activeItemPosition : option IVec2)
| IgnoreNextMotionEvents
| SetDeferredTurboMode (val : bool)
| SetDragThreshold (val : float)
| SetEnableMarkingMode (val : bool)
| SetEnableTurboMode (val : bool).

Definition perform (this : InputTracker) (c : Call) : Completion :=
  match c with
  | OnMotionEvent event a => onMotionEvent this event a
  | OnPointerDownEvent event a => onPointerDownEvent this event a
  | OnPointerUpEvent => Returns (onPointerUpEvent this) []
  | OnKeyDownEvent => Returns (onKeyDownEvent this) []
  | OnKeyUpEvent event => Returns (onKeyUpEvent this event) []
  | Update position a => Returns (update this position a) []
  | IgnoreNextMotionEvents => Returns (ignoreNextMotionEvents this) []
  | SetDeferredTurboMode val => Returns (set_deferredTurboMode val this) []
  | SetDragThreshold val => Returns (set_dragThreshold val this) []
  | SetEnableMarkingMode val => Returns (set_enableMarkingMode val this) []
  | SetEnableTurboMode val => Returns (set_enableTurboMode val this) []
  end.

(** The tracker a call leaves behind: the new one when the call returns, the
    old one when it throws. *)
Definition after (this : InputTracker) (c : Call) : InputTracker :=
  match perform this c with
  | Returns this' _ => this'
  | ThrowsTypeError => this
  end.

(** A session: the calls of a list, first to last. *)
Definition session (this : InputTracker) (calls : list Call) : InputTracker :=
  fold_left after calls this.

End Tracker.

(** ** The vector helpers *)

(** Modelled from the spec: [renderer/math.ts] is imported by the tracker but
    is not among the sources.  The spec calls its functions "vector-math
    helpers (distance, length, angle, subtraction)" and asks that
    "distance = |relativePosition|": subtraction is componentwise, the length
    Euclidean, the distance the length of the difference. *)
Definition vecSubtract (a b : IVec2) : IVec2 := vec2 (x a - x b) (y a - y b).

(** Modelled from the spec: [math.getLength], absent like the rest of
    [renderer/math.ts]; the Euclidean length. *)
Definition vecLength (v : IVec2) : float := sqrt (x v * x v + y v * y v).

(** Modelled from the spec: [math.getDistance], absent like the rest of
    [renderer/math.ts]; the length of the difference. *)
Definition vecDistance (a b : IVec2) : float := vecLength (vecSubtract a b).

(** Modelled from the spec: the module the examples below run with.  The
    arctangent the angle needs is not among the primitive float operations, and
    no transition of the tracker reads [_angle]: the angle is left at NaN. *)
Definition math_ts : MathModule := {|
  subtract := vecSubtract;
  getLength := vecLength;
  getDistance := vecDistance;
  getAngle := fun _ => nan
|}.

(** ** Vocabulary of the specification *)

(** The entry condition of turbo mode as the specification words it: turbo
    mode is enabled and not deferred, and either a key is held and the pointer
    is farther than [dragThreshold] from [keydownPosition], or the motion event
    reports a modifier. *)
Definition turboTrigger (math : MathModule) (this : InputTracker)
    (position : IVec2) (event : PointerEvent) : bool :=
  enableTurboMode this && negb (_deferredTurboMode this)
  && ((anyKeyPressed this
       && gtb (getDistance math position (keydownPosition this)) (dragThreshold this))
      || anyModifier (eventModifiers event)).

(** The state the click-to-drag promotion of a motion update to [position]
    leaves: a click that is not nearer than [dragThreshold] to [clickPosition]
    becomes a drag, or a release when marking mode is off. *)
Definition promoted (math : MathModule) (this : InputTracker)
    (position : IVec2) : InputState :=
  let inZone :=
    match clickPosition this with
    | None => false
    | Some c => PrimFloat.ltb (getDistance math position c) (dragThreshold this)
    end in
  if InputState_eqb (_state this) eClicked && negb inZone
  then (if enableMarkingMode this then eMarkingMode else eReleased)
  else _state this.

(** [clickPosition] is not [null]. *)
Definition hasClickPosition (this : InputTracker) : bool :=
  match clickPosition this with Some _ => true | None => false end.

(** A press is active: the last pointer call that returned was a press, not a
    release.  No press is active before the first call. *)
Definition pressActiveAfter (active : bool) (c : Call) : bool :=
  match c with
  | OnPointerDownEvent event _ =>
      match eventPosition event with Some _ => true | None => active end
  | OnPointerUpEvent => false
  | _ => active
  end.

Definition pressActiveFrom (active : bool) (calls : list Call) : bool :=
  fold_left pressActiveAfter calls active.

Definition pressActive (calls : list Call) : bool := pressActiveFrom false calls.

(** A motion event without modifier flags whose position, if it has one, is
    nearer than [threshold] to the point [c]. *)
Definition nearMotion (math : MathModule) (c : IVec2) (threshold : float)
    (call : Call) : Prop :=
  match call with
  | OnMotionEvent event _ =>
      anyModifier (eventModifiers event) = false
      /\ forall position, eventPosition event = Some position ->
           PrimFloat.ltb (getDistance math position c) threshold = true
  | _ => False
  end.

(** The caller's obligation: a touch event handed to a pointer handler carries
    a touch point. *)
Definition hasTouchPoint (event : PointerEvent) : bool :=
  match event with
  | TouchEvent [] _ => false
  | _ => true
  end.

Definition wellFormed (c : Call) : bool :=
  match c with
  | OnMotionEvent event _ | OnPointerDownEvent event _ => hasTouchPoint event
  | _ => true
  end.

(** ** Sample events *)

Definition mouseAt (cx cy : float) (buttons : Z) : PointerEvent :=
  MouseEvent cx cy buttons noModifiers.

Definition touchAt (cx cy : float) : PointerEvent :=
  TouchEvent [ {| touchX := cx; touchY := cy |} ] noModifiers.

Definition withCtrl : Modifiers :=
  {| ctrlKey := true; metaKey := false; shiftKey := false; altKey := false |}.

Definition keyUp (m : Modifiers) : KeyboardEvent := {| keyModifiers := m |}.

(** ** Kinds of calls *)

(** A call that cannot end a deferral of turbo mode: anything but a key
    release reporting no modifier, and but writing [false] to
    [deferredTurboMode]. *)
Definition keepsDeferral (c : Call) : bool :=
  match c with
  | OnKeyUpEvent event => anyModifier (keyModifiers event)
  | SetDeferredTurboMode val => val
  | _ => true
  end.

(** A call that is neither a press, nor a release, nor a key release reporting
    no modifier. *)
Definition keepsTurbo (c : Call) : bool :=
  match c with
  | OnPointerDownEvent _ _ | OnPointerUpEvent => false
  | OnKeyUpEvent event => anyModifier (keyModifiers event)
  | _ => true
  end.

(** A call that reaches [this.emit('pointer-motion', ...)]: a motion event or
    a press, arriving while no motion event is to be ignored. *)
Definition emits (this : InputTracker) (c : Call) : bool :=
  match c with
  | OnMotionEvent _ _ | OnPointerDownEvent _ _ =>
      negb (0 <? ignoreMotionEvents this)%Z
  | _ => false
  end.

(** A motion event that reports no modifier. *)
Definition plainMotion (c : Call) : bool :=
  match c with
  | OnMotionEvent event _ => negb (anyModifier (eventModifiers event))
  | _ => false
  end.

(** A write to one of the three public configuration fields. *)
Definition writesConfiguration (c : Call) : bool :=
  match c with
  | SetDragThreshold _ | SetEnableMarkingMode _ | SetEnableTurboMode _ => true
  | _ => false
  end.

(** [_distance] and [_angle] are those of [_relativePosition]. *)
Definition polarConsistent (math : MathModule) (this : InputTracker) : Prop :=
  _distance this = getLength math (_relativePosition this)
  /\ _angle this = getAngle math (_relativePosition this).

(** * The icon theme registry

    [IconThemeRegistry] of the second source file: a [Map] from theme keys to
    icon themes, filled by the constructor and, once the promise of
    [window.api.getIconThemes()] resolves, by its callback. *)

(** A JavaScript [Map] with string keys: its entries in insertion order.
    [Map.prototype.get] finds the entry of a key; [Map.prototype.set] replaces
    the value of an existing key where it stands and appends a new key. *)
Definition JSMap (V : Type) : Type := list (string * V).

Fixpoint map_get {V : Type} (key : string) (m : JSMap V) : option V :=
  match m with
  | [] => None
  | (k, v) :: m' => if String.eqb k key then Some v else map_get key m'
  end.

Fixpoint map_set {V : Type} (key : string) (value : V) (m : JSMap V) : JSMap V :=
  match m with
  | [] => [(key, value)]
  | (k, v) :: m' =>
      if String.eqb k key then (k, value) :: m' else (k, v) :: map_set key value m'
  end.

Definition map_keys {V : Type} (m : JSMap V) : list string := map fst m.

Section Registry.

(** The description of a file icon theme the main process reports, of which
    the registry reads the [name] and hands the whole to [FileIconTheme]. *)
Variable FileIconThemeDescription : Type.
Variable name : FileIconThemeDescription -> string.

(** The implementations of [IIconTheme] the registry creates. *)
Inductive IIconTheme : Type :=
| SimpleIconsTheme
| SimpleIconsColoredTheme
| MaterialSymbolsTheme
| EmojiTheme
| FileIconTheme (theme : FileIconThemeDescription)
| FallbackTheme.

(** What [window.api.getIconThemes()] resolves to. *)
Record IconThemesInfo : Type := {
  userIconDirectory : string;
  fileIconThemes : list FileIconThemeDescription
}.

Record IconThemeRegistry : Type := {
  iconThemes : JSMap IIconTheme;
  fallbackTheme : IIconTheme;
  _userIconThemeDirectory : string
}.

(** The constructor, up to the call of [window.api.getIconThemes()]. *)
Definition newIconThemeRegistry : IconThemeRegistry := {|
  iconThemes :=
    map_set "emoji" EmojiTheme
      (map_set "material-symbols-rounded" MaterialSymbolsTheme
         (map_set "simple-icons-colored" SimpleIconsColoredTheme
            (map_set "simple-icons" SimpleIconsTheme [])));
  fallbackTheme := FallbackTheme;
  _userIconThemeDirectory := ""
|}.

(** The callback of the constructor's promise: [then((info) => ...)]. *)
Definition iconThemesReceived (this : IconThemeRegistry) (info : IconThemesInfo)
    : IconThemeRegistry := {|
  iconThemes :=
    fold_left (fun m theme => map_set (name theme) (FileIconTheme theme) m)
      (fileIconThemes info) (iconThemes this);
  fallbackTheme := fallbackTheme this;
  _userIconThemeDirectory := userIconDirectory info
|}.

(** [get userIconThemeDirectory()] *)
Definition userIconThemeDirectory (this : IconThemeRegistry) : string :=
  _userIconThemeDirectory this.

(** [getThemes()] *)
Definition getThemes (this : IconThemeRegistry) : JSMap IIconTheme :=
  iconThemes this.

(** [getTheme(key)]: [this.iconThemes.get(key) || this.fallbackTheme]; a theme
    is an object, never falsy. *)
Definition getTheme (this : IconThemeRegistry) (key : string) : IIconTheme :=
  match map_get key (iconThemes this) with
  | Some theme => theme
  | None => fallbackTheme this
  end.

(** The keys the constructor registers, in order. *)
Definition builtinKeys : list string :=
  ["simple-icons"; "simple-icons-colored"; "material-symbols-rounded"; "emoji"].

End Registry.

(** A file icon theme description for examples: its name and its directory. *)
Definition sampleTheme (n : string) : string * string := (n, "/themes").

(** The order of two IEEE values is never both ways at once. *)
Lemma SFltb_asym (a b : spec_float) : SFltb a b = true -> SFltb b a = false.
Proof.
  unfold SFltb.
  destruct a as [sa|sa| |sa ma ea], b as [sb|sb| |sb mb eb]; cbn;
    try discriminate; try reflexivity;
    try (destruct sa; discriminate || reflexivity);
    try (destruct sb; discriminate || reflexivity);
    try (destruct sa, sb; discriminate || reflexivity).
  destruct sa, sb; try discriminate; try reflexivity;
    rewrite (Z.compare_antisym ea eb);
    destruct (ea ?= eb)%Z eqn:He; cbn; try discriminate; try reflexivity;
    fold (Pos.compare ma mb); fold (Pos.compare mb ma);
    rewrite (Pos.compare_antisym ma mb);
    destruct (ma ?= mb)%positive; cbn; discriminate || reflexivity.
Qed.

Lemma ltb_asym (a b : float) : PrimFloat.ltb a b = true -> PrimFloat.ltb b a = false.
Proof. rewrite !ltb_spec. apply SFltb_asym. Qed.

Lemma gtb_not_ltb (a b : float) : gtb a b = true -> PrimFloat.ltb a b = false.
Proof. unfold gtb. apply ltb_asym. Qed.

Lemma ltb_irrefl (a : float) : PrimFloat.ltb a a = false.
Proof.
  destruct (PrimFloat.ltb a a) eqn:E; [|reflexivity].
  pose proof (ltb_asym a a E). congruence.
Qed.

Lemma InputState_eqb_eq (a b : InputState) : InputState_eqb a b = true <-> a = b.
Proof. destruct a, b; cbn; split; congruence. Qed.

(** * Properties *)

Section TrackerFacts.

Variable math : MathModule.

(** The state a motion update leaves, in one formula. *)
Lemma motionUpdate_state this position event a :
  _state (motionUpdate math this position event a) =
    let s := promoted math this position in
    if negb (InputState_eqb s eTurboMode) && turboTrigger math this position event
    then eTurboMode
    else if isMouseEvent event && InputState_eqb s eMarkingMode && noButtons event
    then eReleased
    else s.
Proof.
  unfold motionUpdate, promoted, turboTrigger, inClickZone, update; cbn.
  destruct (_state this), (clickPosition this) as [c|]; cbn;
    repeat match goal with
      | |- context [PrimFloat.ltb ?a ?b] => destruct (PrimFloat.ltb a b); cbn
      | |- context [gtb ?a ?b] => destruct (gtb a b); cbn
      | |- context [enableMarkingMode this] => destruct (enableMarkingMode this); cbn
      | |- context [enableTurboMode this] => destruct (enableTurboMode this); cbn
      | |- context [_deferredTurboMode this] => destruct (_deferredTurboMode this); cbn
      | |- context [anyKeyPressed this] => destruct (anyKeyPressed this); cbn
      | |- context [anyModifier ?m] => destruct (anyModifier m); cbn
      | |- context [isMouseEvent ?e] => destruct (isMouseEvent e); cbn
      | |- context [noButtons ?e] => destruct (noButtons e); cbn
      end; reflexivity.
Qed.

(** A motion update stores the position it was given, ... *)
Lemma motionUpdate_absolutePosition this position event a :
  _absolutePosition (motionUpdate math this position event a) = position.
Proof.
  unfold motionUpdate.
  repeat match goal with
    | |- context [if ?b then _ else _] => destruct b
    end; reflexivity.
Qed.

(** ... and writes neither the press and key bookkeeping nor the
    configuration. *)
Lemma motionUpdate_frame this position event a :
  let this' := motionUpdate math this position event a in
  clickPosition this' = clickPosition this
  /\ keydownPosition this' = keydownPosition this
  /\ anyKeyPressed this' = anyKeyPressed this
  /\ _deferredTurboMode this' = _deferredTurboMode this
  /\ ignoreMotionEvents this' = ignoreMotionEvents this
  /\ dragThreshold this' = dragThreshold this
  /\ enableMarkingMode this' = enableMarkingMode this
  /\ enableTurboMode this' = enableTurboMode this.
Proof.
  unfold motionUpdate.
  repeat match goal with
    | |- context [if ?b then _ else _] => destruct b
    end; cbn; repeat split; reflexivity.
Qed.

(** An ignored motion event only counts down. *)
Lemma onMotionEvent_ignored this event a :
  (0 < ignoreMotionEvents this)%Z ->
  onMotionEvent math this event a =
    Returns (set_ignoreMotionEvents (ignoreMotionEvents this - 1) this) [].
Proof.
  intros H. unfold onMotionEvent.
  apply Z.ltb_lt in H. rewrite H. reflexivity.
Qed.

(** A motion event that is not ignored runs the motion update and emits the
    new absolute position. *)
Lemma onMotionEvent_processed this event a position :
  (ignoreMotionEvents this <= 0)%Z ->
  eventPosition event = Some position ->
  onMotionEvent math this event a =
    Returns (motionUpdate math this position event a) [PointerMotion position].
Proof.
  intros H E. unfold onMotionEvent.
  apply Z.ltb_ge in H. rewrite H, E.
  rewrite motionUpdate_absolutePosition. reflexivity.
Qed.

(** A press records where it happened, whether or not the motion update it
    ends with is ignored. *)
Lemma press_clickPosition this event a c :
  eventPosition event = Some c ->
  clickPosition (after math this (OnPointerDownEvent event a)) = Some c.
Proof.
  intros E. unfold after, perform, onPointerDownEvent, onMotionEvent.
  rewrite E; cbn.
  destruct (0 <? ignoreMotionEvents this)%Z; cbn; [reflexivity|].
  apply (motionUpdate_frame (set_state eClicked (set_clickPosition (Some c) this))).
Qed.

(** [update] recomputes the relative position, the distance and the angle
    together, from the position and the active item's position, and touches
    nothing else. *)
Lemma update_fields this position a :
  let this' := update math this position a in
  let origin := match a with Some p => p | None => position end in
  _absolutePosition this' = position
  /\ _relativePosition this' = subtract math position origin
  /\ _distance this' = getLength math (_relativePosition this')
  /\ _angle this' = getAngle math (_relativePosition this')
  /\ _state this' = _state this
  /\ clickPosition this' = clickPosition this.
Proof. cbn. repeat split; reflexivity. Qed.

(** ** Turbo mode *)

(** Releasing the last modifier in turbo mode: the state follows
    [clickPosition]. *)
Lemma onKeyUpEvent_turbo this event :
  _state this = eTurboMode ->
  anyModifier (keyModifiers event) = false ->
  _state (onKeyUpEvent this event) =
    if hasClickPosition this then eMarkingMode else eReleased.
Proof.
  intros S M. unfold onKeyUpEvent, hasClickPosition. rewrite M; cbn. rewrite S; cbn.
  destruct (clickPosition this); reflexivity.
Qed.

(** C1 (the code departs from the claim). Releasing all modifiers in turbo
    mode yields [eMarkingMode] when [clickPosition] is not null and
    [eReleased] otherwise ([onKeyUpEvent_turbo]); yet a tracker that entered
    turbo mode without any press ever having occurred does not end up
    released: [clickPosition] is initialised to the point (0, 0), not to
    null, so the key release leaves it in [eMarkingMode]. *)
Theorem C1_turbo_without_press_released_to_marking :
  let moved := OnMotionEvent (MouseEvent 100 0 0 withCtrl) None in
  let entered := session math newInputTracker [moved] in
  pressActive [moved] = false
  /\ _state entered = eTurboMode
  /\ clickPosition entered = Some (vec2 0 0)
  /\ _state (onKeyUpEvent entered (keyUp noModifiers)) = eMarkingMode.
Proof. cbv zeta. repeat split; vm_compute; reflexivity. Qed.

(** C2. A motion update that is not ignored takes a tracker that is not in
    turbo mode into turbo mode if and only if turbo mode is enabled, not
    deferred, and either a key is held and the new position is farther than
    [dragThreshold] from [keydownPosition], or the event reports a modifier;
    this whatever the state was before, and a tracker in turbo mode stays in
    turbo mode. *)
Theorem C2_turbo_entry this event a position :
  (ignoreMotionEvents this <= 0)%Z ->
  eventPosition event = Some position ->
  exists this',
    onMotionEvent math this event a = Returns this' [PointerMotion position]
    /\ (_state this <> eTurboMode ->
        (_state this' = eTurboMode <->
         turboTrigger math this position event = true))
    /\ (_state this = eTurboMode -> _state this' = eTurboMode).
Proof.
  intros I E. eexists. split; [apply onMotionEvent_processed; eassumption|].
  rewrite motionUpdate_state. unfold promoted.
  destruct (turboTrigger math this position event);
    destruct (_state this), (clickPosition this) as [c|]; cbn;
    repeat match goal with
      | |- context [PrimFloat.ltb ?u ?v] => destruct (PrimFloat.ltb u v); cbn
      | |- context [enableMarkingMode this] => destruct (enableMarkingMode this); cbn
      | |- context [isMouseEvent ?e] => destruct (isMouseEvent e); cbn
      | |- context [noButtons ?e] => destruct (noButtons e); cbn
      end;
    (split; [intros N; split; intros; congruence | intros; congruence]).
Qed.

(** With turbo mode disabled, a call that does not enable it keeps the
    tracker out of turbo mode. *)
Lemma turbo_off_step this c :
  enableTurboMode this = false ->
  _state this <> eTurboMode ->
  c <> SetEnableTurboMode true ->
  enableTurboMode (after math this c) = false
  /\ _state (after math this c) <> eTurboMode.
Proof.
  intros T S C.
  assert (M : forall t position event a,
             enableTurboMode t = false -> _state t <> eTurboMode ->
             enableTurboMode (motionUpdate math t position event a) = false
             /\ _state (motionUpdate math t position event a) <> eTurboMode).
  { intros t position event a Tt St. split.
    - rewrite <- Tt. apply (motionUpdate_frame t).
    - rewrite motionUpdate_state. unfold promoted, turboTrigger. rewrite Tt; cbn.
      rewrite andb_false_r.
      destruct (_state t); try congruence;
        repeat match goal with
          | |- context [if ?b then _ else _] => destruct b; cbn
          end; congruence. }
  assert (O : forall t event a,
             enableTurboMode t = false -> _state t <> eTurboMode ->
             match onMotionEvent math t event a with
             | Returns t' _ => enableTurboMode t' = false /\ _state t' <> eTurboMode
             | ThrowsTypeError => True
             end).
  { intros t event a Tt St. unfold onMotionEvent.
    destruct (0 <? ignoreMotionEvents t)%Z; cbn; [tauto|].
    destruct (eventPosition event); [apply M; assumption | exact I]. }
  destruct c; unfold after; cbn.
  - specialize (O this event activeItemPosition T S).
    destruct (onMotionEvent math this event activeItemPosition); tauto.
  - unfold onPointerDownEvent.
    destruct (eventPosition event) as [p|]; [|tauto].
    match goal with
    | |- context [onMotionEvent math ?t ?e ?a] =>
        specialize (O t e a T); destruct (onMotionEvent math t e a)
    end; [apply O; cbn; congruence | tauto].
  - split; [exact T | congruence].
  - unfold onKeyDownEvent. destruct (_deferredTurboMode this); cbn; tauto.
  - unfold onKeyUpEvent. destruct (anyModifier (keyModifiers event)); cbn; [tauto|].
    destruct (_state this) eqn:St; cbn; rewrite ?St; split; (exact T || congruence).
  - tauto.
  - tauto.
  - tauto.
  - tauto.
  - tauto.
  - destruct val; [congruence | cbn; tauto].
Qed.

Lemma turbo_off_session calls : forall this,
  enableTurboMode this = false ->
  _state this <> eTurboMode ->
  Forall (fun c => c <> SetEnableTurboMode true) calls ->
  _state (session math this calls) <> eTurboMode.
Proof.
  induction calls as [|c calls IH]; intros this T S F; cbn.
  - exact S.
  - inversion F as [|? ? Hc Hcalls]; subst.
    destruct (turbo_off_step this c T S Hc) as [T' S'].
    apply IH; assumption.
Qed.

(** C6. With [enableTurboMode] false from the start and never switched on, no
    sequence of calls whatsoever (presses, motions, releases, key events
    with any modifier flags) brings the tracker into turbo mode. *)
Theorem C6_turbo_disabled_never_turbo calls :
  Forall (fun c => c <> SetEnableTurboMode true) calls ->
  _state (session math (set_enableTurboMode false newInputTracker) calls)
    <> eTurboMode.
Proof.
  intros F. apply turbo_off_session; [reflexivity | cbn; congruence | exact F].
Qed.

(** ** Presses and [clickPosition] *)

(** Every call moves [clickPosition] between null and non-null exactly as it
    starts or ends a press. *)
Lemma hasClickPosition_step this c :
  hasClickPosition (after math this c) = pressActiveAfter (hasClickPosition this) c.
Proof.
  unfold hasClickPosition.
  destruct c; unfold after; cbn; try reflexivity.
  - unfold onMotionEvent.
    destruct (0 <? ignoreMotionEvents this)%Z; cbn; [reflexivity|].
    destruct (eventPosition event) as [p|]; [|reflexivity].
    destruct (motionUpdate_frame this p event activeItemPosition) as [-> _].
    reflexivity.
  - change (perform math this (OnPointerDownEvent event activeItemPosition))
      with (onPointerDownEvent math this event activeItemPosition).
    destruct (eventPosition event) as [p|] eqn:E.
    + pose proof (press_clickPosition this event activeItemPosition p E) as P.
      unfold after in P; cbn in P. rewrite P. reflexivity.
    + unfold onPointerDownEvent. rewrite E. reflexivity.
  - unfold onKeyDownEvent. destruct (_deferredTurboMode this); reflexivity.
  - unfold onKeyUpEvent. destruct (anyModifier (keyModifiers event)); cbn; [reflexivity|].
    destruct (InputState_eqb (_state this) eTurboMode); reflexivity.
Qed.

(** Hence, from any tracker on, [clickPosition] is non-null after a session
    exactly when it was non-null and no release followed, or a press came
    with no release after it. *)
Lemma hasClickPosition_session calls : forall this,
  hasClickPosition (session math this calls)
  = pressActiveFrom (hasClickPosition this) calls.
Proof.
  induction calls as [|c calls IH]; intros this; [reflexivity|].
  change (session math this (c :: calls))
    with (session math (after math this c) calls).
  rewrite IH, hasClickPosition_step. reflexivity.
Qed.

(** Once a press or a release has been seen, [clickPosition] is non-null if
    and only if a press is active. *)
Lemma clickPosition_iff_press_after_release this calls :
  hasClickPosition (session math (onPointerUpEvent this) calls) = pressActive calls.
Proof. apply hasClickPosition_session. Qed.

(** C3 (the code departs from the claim). [clickPosition] is set by every
    press and cleared by every release ([hasClickPosition_step]), but the
    biconditional "non-null if and only if a press is active" does not hold
    from the initial state onward: a new tracker has seen no press, and its
    [clickPosition] is the point (0, 0), not null; it stays so under calls
    that are neither presses nor releases. *)
Theorem C3_new_tracker_has_clickPosition_without_press :
  pressActive [] = false
  /\ clickPosition newInputTracker = Some (vec2 0 0)
  /\ hasClickPosition
       (session math newInputTracker
          [OnKeyDownEvent; OnMotionEvent (mouseAt 100 0 0) None;
           OnKeyUpEvent (keyUp noModifiers)]) = true.
Proof.
  repeat split. rewrite hasClickPosition_session. reflexivity.
Qed.

(** ** Clicks and drags *)

(** A motion update on a click that triggers no turbo mode keeps the click
    exactly when the new position is nearer than [dragThreshold] to
    [clickPosition]: the comparison is [<], so a motion to exactly the
    threshold ends the click. *)
Lemma click_kept_iff_near this position event a c :
  _state this = eClicked ->
  clickPosition this = Some c ->
  turboTrigger math this position event = false ->
  (_state (motionUpdate math this position event a) = eClicked
   <-> PrimFloat.ltb (getDistance math position c) (dragThreshold this) = true).
Proof.
  intros S C T. rewrite motionUpdate_state. unfold promoted.
  rewrite S, C, T; cbn.
  destruct (PrimFloat.ltb (getDistance math position c) (dragThreshold this)); cbn.
  - rewrite !andb_false_r. split; reflexivity.
  - destruct (enableMarkingMode this); cbn;
      repeat match goal with
        | |- context [if ?b then _ else _] => destruct b; cbn
        end; split; congruence.
Qed.

(** In particular a motion to exactly [dragThreshold] from the press point
    ends the click. *)
Lemma click_lost_at_threshold this position event a c :
  _state this = eClicked ->
  clickPosition this = Some c ->
  turboTrigger math this position event = false ->
  getDistance math position c = dragThreshold this ->
  _state (motionUpdate math this position event a) <> eClicked.
Proof.
  intros S C T D K.
  apply (click_kept_iff_near this position event a c S C T) in K.
  rewrite D, ltb_irrefl in K. discriminate.
Qed.

(** A click outlives every run of motion events that stay nearer than
    [dragThreshold] to the press point, with no key held and no modifier flag;
    the release then yields [eReleased] and clears [clickPosition]. *)
Lemma near_motions_keep_click calls : forall this c,
  _state this = eClicked ->
  clickPosition this = Some c ->
  anyKeyPressed this = false ->
  Forall (nearMotion math c (dragThreshold this)) calls ->
  _state (session math this calls) = eClicked
  /\ _state (session math this (calls ++ [OnPointerUpEvent])) = eReleased
  /\ clickPosition (session math this (calls ++ [OnPointerUpEvent])) = None.
Proof.
  induction calls as [|call calls IH]; intros this c S C K F.
  - cbn. rewrite S. repeat split; reflexivity.
  - inversion F as [|? ? Hcall Hcalls]; subst.
    destruct call; try contradiction. destruct Hcall as [M N].
    change (session math this (OnMotionEvent event activeItemPosition :: calls))
      with (session math (after math this (OnMotionEvent event activeItemPosition))
              calls).
    change (session math this
              ((OnMotionEvent event activeItemPosition :: calls) ++ [OnPointerUpEvent]))
      with (session math (after math this (OnMotionEvent event activeItemPosition))
              (calls ++ [OnPointerUpEvent])).
    assert (Inv : let this' := after math this (OnMotionEvent event activeItemPosition) in
                  _state this' = eClicked /\ clickPosition this' = Some c
                  /\ anyKeyPressed this' = false
                  /\ dragThreshold this' = dragThreshold this).
    { unfold after; cbn. unfold onMotionEvent.
      destruct (0 <? ignoreMotionEvents this)%Z; cbn; [tauto|].
      destruct (eventPosition event) as [p|] eqn:E; [|tauto].
      destruct (motionUpdate_frame this p event activeItemPosition)
        as (-> & _ & -> & _ & _ & -> & _).
      repeat split; try assumption.
      apply (click_kept_iff_near this p event activeItemPosition c S C).
      - unfold turboTrigger. rewrite K, M; cbn. apply andb_false_r.
      - apply N. reflexivity. }
    destruct Inv as (S' & C' & K' & D').
    apply (IH _ c S' C' K'). rewrite D'. exact Hcalls.
Qed.

(** C5 (as amended). After a press that leaves the tracker in [eClicked], a
    motion update that is not ignored, whose position is strictly farther
    than [dragThreshold] from the press point and which triggers no turbo
    mode, leaves [eMarkingMode] when marking mode is enabled and the event is
    not a mouse event without buttons, and [eReleased] when marking mode is
    disabled or the event is a mouse event reporting no button held. *)
Theorem C5_drag_promotion this event0 a0 c event a position :
  let pressed := after math this (OnPointerDownEvent event0 a0) in
  eventPosition event0 = Some c ->
  _state pressed = eClicked ->
  (ignoreMotionEvents pressed <= 0)%Z ->
  eventPosition event = Some position ->
  gtb (getDistance math position c) (dragThreshold pressed) = true ->
  turboTrigger math pressed position event = false ->
  _state (after math pressed (OnMotionEvent event a)) =
    if enableMarkingMode pressed && negb (isMouseEvent event && noButtons event)
    then eMarkingMode
    else eReleased.
Proof.
  intros pressed E0 S I E G T.
  pose proof (press_clickPosition this event0 a0 c E0) as C. fold pressed in C.
  unfold after; cbn.
  rewrite (onMotionEvent_processed pressed event a position I E).
  rewrite motionUpdate_state. unfold promoted.
  rewrite S, C, T, (gtb_not_ltb _ _ G); cbn.
  destruct (enableMarkingMode pressed); cbn;
    destruct (isMouseEvent event), (noButtons event); reflexivity.
Qed.

(** ** Ignored motion events *)

(** C8. After [ignoreNextMotionEvents], the next two motion events only count
    the ignore counter down, from 2 to 1 and from 1 to 0: they emit nothing,
    and the tracker they leave differs from the one before the call in
    nothing but that counter.  The third motion event is processed: it runs
    the motion update and emits the new position (or throws for want of a
    touch point). *)
Theorem C8_two_motion_events_ignored this e1 a1 e2 a2 e3 a3 :
  let armed := ignoreNextMotionEvents this in
  let once := set_ignoreMotionEvents 1 this in
  let twice := set_ignoreMotionEvents 0 this in
  onMotionEvent math armed e1 a1 = Returns once []
  /\ onMotionEvent math once e2 a2 = Returns twice []
  /\ (_absolutePosition twice = _absolutePosition this
      /\ _relativePosition twice = _relativePosition this
      /\ _distance twice = _distance this
      /\ _angle twice = _angle this
      /\ _state twice = _state this
      /\ clickPosition twice = clickPosition this
      /\ keydownPosition twice = keydownPosition this
      /\ anyKeyPressed twice = anyKeyPressed this)
  /\ onMotionEvent math twice e3 a3 =
       match eventPosition e3 with
       | Some position =>
           Returns (motionUpdate math twice position e3 a3) [PointerMotion position]
       | None => ThrowsTypeError
       end.
Proof.
  cbv zeta. split; [reflexivity|]. split; [reflexivity|].
  split; [repeat split; reflexivity|].
  destruct (eventPosition e3) as [p|] eqn:E.
  - apply onMotionEvent_processed; [cbn; lia | exact E].
  - unfold onMotionEvent. cbn. rewrite E. reflexivity.
Qed.

(** ** Errors *)

(** The precondition is needed: a touch event without a touch point makes
    both pointer handlers throw (the motion handler unless it ignores the
    event). *)
Lemma empty_touch_throws this m a :
  onPointerDownEvent math this (TouchEvent [] m) a = ThrowsTypeError
  /\ ((ignoreMotionEvents this <= 0)%Z ->
      onMotionEvent math this (TouchEvent [] m) a = ThrowsTypeError).
Proof.
  split; [reflexivity|]. intros I. unfold onMotionEvent.
  apply Z.ltb_ge in I. rewrite I. reflexivity.
Qed.

(** C9. When the touch events handed to [onMotionEvent] and
    [onPointerDownEvent] carry at least one touch point, no public operation
    throws: every call returns. *)
Theorem C9_no_throw this c :
  wellFormed c = true ->
  exists this' emitted, perform math this c = Returns this' emitted.
Proof.
  intros W.
  assert (P : forall event, hasTouchPoint event = true ->
              exists p, eventPosition event = Some p).
  { intros [cx cy b m|[|t ts] m]; cbn; intros H; try discriminate; eexists; reflexivity. }
  assert (O : forall t event a, hasTouchPoint event = true ->
              exists t' emitted, onMotionEvent math t event a = Returns t' emitted).
  { intros t event a H. unfold onMotionEvent.
    destruct (0 <? ignoreMotionEvents t)%Z; [do 2 eexists; reflexivity|].
    destruct (P event H) as [p ->]. do 2 eexists; reflexivity. }
  destruct c; cbn in *; try (do 2 eexists; reflexivity).
  - apply O; exact W.
  - unfold onPointerDownEvent. destruct (P event W) as [p E]. rewrite E.
    apply O; exact W.
Qed.

(** ** Touch and marking mode *)

(** A mouse motion without buttons ends marking mode ... *)
Lemma mouse_without_buttons_leaves_marking this cx cy m a :
  _state this = eMarkingMode ->
  turboTrigger math this (vec2 cx cy) (MouseEvent cx cy 0 m) = false ->
  _state (motionUpdate math this (vec2 cx cy) (MouseEvent cx cy 0 m) a) = eReleased.
Proof.
  intros S T. rewrite motionUpdate_state. unfold promoted. rewrite S, T. reflexivity.
Qed.

(** C10. ... whereas a touch motion that is not ignored and triggers no turbo
    mode leaves a tracker in marking mode in marking mode: the exit to
    [eReleased] on a motion without buttons is taken for mouse events only. *)
Theorem C10_touch_motion_keeps_marking this touches m a position :
  (ignoreMotionEvents this <= 0)%Z ->
  eventPosition (TouchEvent touches m) = Some position ->
  _state this = eMarkingMode ->
  turboTrigger math this position (TouchEvent touches m) = false ->
  exists this',
    onMotionEvent math this (TouchEvent touches m) a
      = Returns this' [PointerMotion position]
    /\ _state this' = eMarkingMode.
Proof.
  intros I E S T. eexists. split; [apply onMotionEvent_processed; eassumption|].
  rewrite motionUpdate_state. unfold promoted. rewrite S, T. reflexivity.
Qed.

End TrackerFacts.

(** * The claims on concrete sessions *)

(** C4 (the code departs from the claim). With the default threshold of 15, a
    press at (100, 100) followed by a motion to (115, 100) stays within the
    threshold: the distance is exactly 15, not more.  The claim keeps the click
    ([eClicked]) there; the code compares with [<] and ends it, entering
    marking mode.  Strictly inside the threshold the click is kept, as the
    claim says ([click_kept_iff_near]). *)
Theorem C4_motion_to_exactly_threshold_ends_click :
  let press := OnPointerDownEvent (mouseAt 100 100 1) None in
  let inside := OnMotionEvent (mouseAt 105 103 1) None in
  let onEdge := OnMotionEvent (mouseAt 115 100 1) None in
  _state (session math_ts newInputTracker [press]) = eClicked
  /\ _state (session math_ts newInputTracker [press; inside]) = eClicked
  /\ getDistance math_ts (vec2 115 100) (vec2 100 100) = dragThreshold newInputTracker
  /\ gtb (getDistance math_ts (vec2 115 100) (vec2 100 100))
         (dragThreshold newInputTracker) = false
  /\ _state (session math_ts newInputTracker [press; inside; onEdge]) = eMarkingMode
  /\ _state (session math_ts newInputTracker [press; inside; onEdge; OnPointerUpEvent])
     = eReleased.
Proof. cbv zeta. repeat split; vm_compute; reflexivity. Qed.

(** C5 as stated fails: after a press at (100, 100), a mouse motion to
    (120, 100), 20 pixels away with the threshold at 15, that reports no button
    held and triggers no turbo mode leaves [eReleased] although marking mode is
    enabled. *)
Lemma C5_mouse_without_buttons_releases :
  let pressed :=
    after math_ts newInputTracker (OnPointerDownEvent (mouseAt 100 100 1) None) in
  let move := mouseAt 120 100 0 in
  _state pressed = eClicked
  /\ clickPosition pressed = Some (vec2 100 100)
  /\ enableMarkingMode pressed = true
  /\ ignoreMotionEvents pressed = 0%Z
  /\ eventPosition move = Some (vec2 120 100)
  /\ gtb (getDistance math_ts (vec2 120 100) (vec2 100 100)) (dragThreshold pressed)
     = true
  /\ turboTrigger math_ts pressed (vec2 120 100) move = false
  /\ _state (after math_ts pressed (OnMotionEvent move None)) = eReleased
  /\ _state (after math_ts pressed (OnMotionEvent move None)) <> eMarkingMode.
Proof. cbv zeta. repeat split; vm_compute; (reflexivity || discriminate). Qed.

(** ** Witnesses *)

Lemma C2_turbo_entry_witness :
  let this := onKeyDownEvent newInputTracker in
  let event := mouseAt 100 0 0 in
  (ignoreMotionEvents this <= 0)%Z
  /\ eventPosition event = Some (vec2 100 0)
  /\ exists this',
       onMotionEvent math_ts this event None
         = Returns this' [PointerMotion (vec2 100 0)]
       /\ (_state this <> eTurboMode ->
           (_state this' = eTurboMode <->
            turboTrigger math_ts this (vec2 100 0) event = true))
       /\ (_state this = eTurboMode -> _state this' = eTurboMode).
Proof.
  cbv zeta.
  assert (I : (ignoreMotionEvents (onKeyDownEvent newInputTracker) <= 0)%Z)
    by (cbn; lia).
  split; [exact I|]. split; [reflexivity|].
  exact (C2_turbo_entry math_ts (onKeyDownEvent newInputTracker) (mouseAt 100 0 0)
           None (vec2 100 0) I eq_refl).
Defined.

Lemma C5_drag_promotion_witness :
  let press := mouseAt 100 100 1 in
  let move := mouseAt 120 100 1 in
  let pressed := after math_ts newInputTracker (OnPointerDownEvent press None) in
  eventPosition press = Some (vec2 100 100)
  /\ _state pressed = eClicked
  /\ (ignoreMotionEvents pressed <= 0)%Z
  /\ eventPosition move = Some (vec2 120 100)
  /\ gtb (getDistance math_ts (vec2 120 100) (vec2 100 100)) (dragThreshold pressed)
     = true
  /\ turboTrigger math_ts pressed (vec2 120 100) move = false
  /\ _state (after math_ts pressed (OnMotionEvent move None)) = eMarkingMode.
Proof.
  cbv zeta.
  assert (E0 : eventPosition (mouseAt 100 100 1) = Some (vec2 100 100))
    by reflexivity.
  assert (S : _state (after math_ts newInputTracker
                        (OnPointerDownEvent (mouseAt 100 100 1) None)) = eClicked)
    by (vm_compute; reflexivity).
  assert (I : (ignoreMotionEvents
                 (after math_ts newInputTracker
                    (OnPointerDownEvent (mouseAt 100 100 1) None)) <= 0)%Z)
    by (vm_compute; discriminate).
  assert (E : eventPosition (mouseAt 120 100 1) = Some (vec2 120 100))
    by reflexivity.
  assert (G : gtb (getDistance math_ts (vec2 120 100) (vec2 100 100))
                (dragThreshold
                   (after math_ts newInputTracker
                      (OnPointerDownEvent (mouseAt 100 100 1) None))) = true)
    by (vm_compute; reflexivity).
  assert (T : turboTrigger math_ts
                (after math_ts newInputTracker
                   (OnPointerDownEvent (mouseAt 100 100 1) None))
                (vec2 120 100) (mouseAt 120 100 1) = false)
    by (vm_compute; reflexivity).
  repeat (split; [assumption|]).
  exact (C5_drag_promotion math_ts newInputTracker (mouseAt 100 100 1) None
           (vec2 100 100) (mouseAt 120 100 1) None (vec2 120 100) E0 S I E G T).
Defined.

Lemma C6_turbo_disabled_never_turbo_witness :
  let calls :=
    [OnKeyDownEvent; OnMotionEvent (MouseEvent 100 0 0 withCtrl) None;
     OnPointerDownEvent (MouseEvent 100 0 1 withCtrl) None;
     OnKeyUpEvent (keyUp noModifiers)] in
  Forall (fun c => c <> SetEnableTurboMode true) calls
  /\ _state (session math_ts (set_enableTurboMode false newInputTracker) calls)
     <> eTurboMode.
Proof.
  cbv zeta.
  assert (F : Forall (fun c : Call => c <> SetEnableTurboMode true)
                [OnKeyDownEvent; OnMotionEvent (MouseEvent 100 0 0 withCtrl) None;
                 OnPointerDownEvent (MouseEvent 100 0 1 withCtrl) None;
                 OnKeyUpEvent (keyUp noModifiers)])
    by (repeat constructor; discriminate).
  split; [exact F|].
  exact (C6_turbo_disabled_never_turbo math_ts _ F).
Defined.

Lemma C9_no_throw_witness :
  wellFormed (OnPointerDownEvent (touchAt 10 20) None) = true
  /\ exists this' emitted,
       perform math_ts newInputTracker (OnPointerDownEvent (touchAt 10 20) None)
         = Returns this' emitted.
Proof.
  split; [reflexivity|].
  exact (C9_no_throw math_ts newInputTracker
           (OnPointerDownEvent (touchAt 10 20) None) eq_refl).
Defined.

Lemma C10_touch_motion_keeps_marking_witness :
  let dragging :=
    session math_ts newInputTracker
      [OnPointerDownEvent (touchAt 100 100) None;
       OnMotionEvent (touchAt 130 100) None] in
  let touch := {| touchX := 140; touchY := 100 |} in
  (ignoreMotionEvents dragging <= 0)%Z
  /\ eventPosition (TouchEvent [touch] noModifiers) = Some (vec2 140 100)
  /\ _state dragging = eMarkingMode
  /\ turboTrigger math_ts dragging (vec2 140 100) (TouchEvent [touch] noModifiers)
     = false
  /\ exists this',
       onMotionEvent math_ts dragging (TouchEvent [touch] noModifiers) None
         = Returns this' [PointerMotion (vec2 140 100)]
       /\ _state this' = eMarkingMode.
Proof.
  cbv zeta.
  assert (I : (ignoreMotionEvents
                 (session math_ts newInputTracker
                    [OnPointerDownEvent (touchAt 100 100) None;
                     OnMotionEvent (touchAt 130 100) None]) <= 0)%Z)
    by (vm_compute; discriminate).
  assert (S : _state
                (session math_ts newInputTracker
                   [OnPointerDownEvent (touchAt 100 100) None;
                    OnMotionEvent (touchAt 130 100) None]) = eMarkingMode)
    by (vm_compute; reflexivity).
  assert (T : turboTrigger math_ts
                (session math_ts newInputTracker
                   [OnPointerDownEvent (touchAt 100 100) None;
                    OnMotionEvent (touchAt 130 100) None])
                (vec2 140 100)
                (TouchEvent [ {| touchX := 140; touchY := 100 |} ] noModifiers)
              = false)
    by (vm_compute; reflexivity).
  split; [exact I|]. split; [reflexivity|]. split; [exact S|]. split; [exact T|].
  exact (C10_touch_motion_keeps_marking math_ts _
           [ {| touchX := 140; touchY := 100 |} ] noModifiers None (vec2 140 100)
           I eq_refl S T).
Defined.

(** * Further properties of the tracker *)

Lemma SFltb_nan_r (a : spec_float) : SFltb a S754_nan = false.
Proof. destruct a as [s|s| |s m e]; reflexivity. Qed.

Lemma ltb_nan_r (a : float) : PrimFloat.ltb a nan = false.
Proof. rewrite ltb_spec. apply SFltb_nan_r. Qed.

Lemma ltb_nan_l (a : float) : PrimFloat.ltb nan a = false.
Proof. rewrite ltb_spec. reflexivity. Qed.

Section MoreTrackerFacts.

Variable math : MathModule.

(** What a motion event leaves behind is the tracker as it was (the event
    threw), the tracker with its counter one lower (the event was ignored), or
    the result of the motion update. *)
Lemma after_motion_cases (P : InputTracker -> Prop) this event a :
  P this ->
  ((0 < ignoreMotionEvents this)%Z ->
   P (set_ignoreMotionEvents (ignoreMotionEvents this - 1) this)) ->
  (forall position,
      (ignoreMotionEvents this <= 0)%Z ->
      eventPosition event = Some position ->
      P (motionUpdate math this position event a)) ->
  P (after math this (OnMotionEvent event a)).
Proof.
  intros H0 H1 H2. unfold after; cbn. unfold onMotionEvent.
  destruct (0 <? ignoreMotionEvents this)%Z eqn:I.
  - apply H1. apply Z.ltb_lt. exact I.
  - destruct (eventPosition event) as [p|] eqn:E; [|exact H0].
    apply H2; [apply Z.ltb_ge; exact I | reflexivity].
Qed.

(** A press either throws or is a motion event on the tracker with the click
    recorded. *)
Lemma after_press_cases (P : InputTracker -> Prop) this event a :
  P this ->
  (forall position,
      eventPosition event = Some position ->
      P (after math (set_state eClicked (set_clickPosition (Some position) this))
           (OnMotionEvent event a))) ->
  P (after math this (OnPointerDownEvent event a)).
Proof.
  intros H0 H1. unfold after; cbn. unfold onPointerDownEvent.
  destruct (eventPosition event) as [p|] eqn:E; [|exact H0].
  specialize (H1 p eq_refl). unfold after in H1; cbn in H1.
  destruct (onMotionEvent math (set_state eClicked (set_clickPosition (Some p) this))
              event a) eqn:O.
  - exact H1.
  - unfold onMotionEvent in O. cbn in O.
    destruct (0 <? ignoreMotionEvents this)%Z; [discriminate|].
    rewrite E in O. discriminate.
Qed.

(** Without a trigger, a motion update does not enter turbo mode. *)
Lemma motionUpdate_not_turbo this position event a :
  turboTrigger math this position event = false ->
  _state this <> eTurboMode ->
  _state (motionUpdate math this position event a) <> eTurboMode.
Proof.
  intros T S. rewrite motionUpdate_state. unfold promoted. rewrite T.
  rewrite andb_false_r.
  destruct (_state this); try congruence;
    repeat match goal with
      | |- context [if ?b then _ else _] => destruct b; cbn
      end; congruence.
Qed.

Lemma deferred_step this c :
  _deferredTurboMode this = true ->
  _state this <> eTurboMode ->
  keepsDeferral c = true ->
  _deferredTurboMode (after math this c) = true
  /\ _state (after math this c) <> eTurboMode.
Proof.
  intros D S K.
  assert (M : forall t event a,
             _deferredTurboMode t = true -> _state t <> eTurboMode ->
             _deferredTurboMode (after math t (OnMotionEvent event a)) = true
             /\ _state (after math t (OnMotionEvent event a)) <> eTurboMode).
  { intros t event a Dt St. apply after_motion_cases.
    - tauto.
    - intros _. cbn. tauto.
    - intros p _ _. split.
      + rewrite <- Dt. apply (motionUpdate_frame math t).
      + apply motionUpdate_not_turbo; [|exact St].
        unfold turboTrigger. rewrite Dt. cbn. rewrite andb_false_r. reflexivity. }
  destruct c; cbn in K.
  - apply M; assumption.
  - apply after_press_cases; [tauto|].
    intros p _. apply M; cbn; congruence.
  - unfold after; cbn. split; [exact D | congruence].
  - unfold after; cbn. unfold onKeyDownEvent. rewrite D. cbn. tauto.
  - unfold after; cbn. unfold onKeyUpEvent. rewrite K. cbn. tauto.
  - unfold after; cbn. tauto.
  - unfold after; cbn. tauto.
  - unfold after; cbn. subst val. tauto.
  - unfold after; cbn. tauto.
  - unfold after; cbn. tauto.
  - unfold after; cbn. tauto.
Qed.

(** X1. While turbo mode is deferred, no press, release, motion, key press or
    key release with a modifier still held brings a tracker into turbo mode:
    only a key release reporting no modifier (or the setter) lifts the
    deferral. *)
Theorem deferred_turbo_mode_never_entered calls : forall this,
  _deferredTurboMode this = true ->
  _state this <> eTurboMode ->
  Forall (fun c => keepsDeferral c = true) calls ->
  _state (session math this calls) <> eTurboMode.
Proof.
  induction calls as [|c calls IH]; intros this D S F.
  - exact S.
  - inversion F as [|? ? Hc Hcalls]; subst.
    destruct (deferred_step this c D S Hc) as [D' S'].
    change (session math this (c :: calls))
      with (session math (after math this c) calls).
    apply IH; assumption.
Qed.

(** X2. A key release reporting no modifier arms turbo mode, deferred or not:
    after it, a key press followed by a motion event that is not ignored and
    lies farther than [dragThreshold] from where the pointer was enters turbo
    mode, provided turbo mode is enabled. *)
Theorem full_key_release_arms_turbo_mode this released event a position :
  anyModifier (keyModifiers released) = false ->
  enableTurboMode this = true ->
  (ignoreMotionEvents this <= 0)%Z ->
  eventPosition event = Some position ->
  gtb (getDistance math position (_absolutePosition this)) (dragThreshold this) = true ->
  _state (session math this
            [OnKeyUpEvent released; OnKeyDownEvent; OnMotionEvent event a])
    = eTurboMode.
Proof.
  intros M T I E G.
  set (armed := after math (after math this (OnKeyUpEvent released)) OnKeyDownEvent).
  change (session math this
            [OnKeyUpEvent released; OnKeyDownEvent; OnMotionEvent event a])
    with (after math armed (OnMotionEvent event a)).
  assert (A : enableTurboMode armed = true /\ _deferredTurboMode armed = false
              /\ anyKeyPressed armed = true
              /\ keydownPosition armed = _absolutePosition this
              /\ dragThreshold armed = dragThreshold this
              /\ ignoreMotionEvents armed = ignoreMotionEvents this
              /\ _state armed <> eTurboMode).
  { unfold armed, after; cbn. unfold onKeyUpEvent. rewrite M; cbn.
    unfold onKeyDownEvent.
    destruct (_absolutePosition this) as [ax ay] eqn:EA.
    destruct (_state this) eqn:S; cbn; rewrite ?EA; cbn;
      repeat split; try assumption; try congruence;
      destruct (clickPosition this); cbn; congruence. }
  destruct A as (A1 & A2 & A3 & A4 & A5 & A6 & A7).
  clearbody armed. unfold after; cbn [perform].
  rewrite (onMotionEvent_processed math armed event a position); [|lia|exact E].
  rewrite motionUpdate_state.
  assert (Tr : turboTrigger math armed position event = true).
  { unfold turboTrigger. rewrite A1, A2, A3, A4, A5, G. reflexivity. }
  rewrite Tr. unfold promoted. cbv zeta.
  destruct (_state armed), (clickPosition armed) as [c|]; try congruence; cbn;
    repeat match goal with
      | |- context [PrimFloat.ltb ?u ?v] => destruct (PrimFloat.ltb u v); cbn
      | |- context [enableMarkingMode armed] => destruct (enableMarkingMode armed); cbn
      end; reflexivity.
Qed.

Lemma turbo_kept_step this c :
  _state this = eTurboMode ->
  keepsTurbo c = true ->
  _state (after math this c) = eTurboMode.
Proof.
  intros S K. destruct c; cbn in K; try discriminate.
  - apply after_motion_cases; [exact S | intros _; exact S |].
    intros p _ _. rewrite motionUpdate_state. unfold promoted. rewrite S. cbn.
    destruct (isMouseEvent event); reflexivity.
  - unfold after; cbn. unfold onKeyDownEvent.
    destruct (_deferredTurboMode this); exact S.
  - unfold after; cbn. unfold onKeyUpEvent. rewrite K. exact S.
  - exact S.
  - exact S.
  - exact S.
  - exact S.
  - exact S.
  - exact S.
Qed.

(** X3. Turbo mode ends only by a press, a release, or a key release
    reporting no modifier: motion events (with or without modifiers or keys),
    key presses, key releases with a modifier left, and writes to the
    configuration, even one that disables turbo mode, all keep it. *)
Theorem turbo_mode_kept calls : forall this,
  _state this = eTurboMode ->
  Forall (fun c => keepsTurbo c = true) calls ->
  _state (session math this calls) = eTurboMode.
Proof.
  induction calls as [|c calls IH]; intros this S F.
  - exact S.
  - inversion F as [|? ? Hc Hcalls]; subst.
    change (session math this (c :: calls))
      with (session math (after math this c) calls).
    apply IH; [apply turbo_kept_step; assumption | exact Hcalls].
Qed.

(** X4. A press that arrives while motion events are being ignored is
    recorded as a click at the event's position, but its motion part is
    swallowed: the absolute position is not updated, nothing is emitted, and
    the press uses up one of the events to ignore. *)
Theorem press_while_ignoring this event a position :
  (0 < ignoreMotionEvents this)%Z ->
  eventPosition event = Some position ->
  exists this',
    perform math this (OnPointerDownEvent event a) = Returns this' []
    /\ _state this' = eClicked
    /\ clickPosition this' = Some position
    /\ _absolutePosition this' = _absolutePosition this
    /\ ignoreMotionEvents this' = (ignoreMotionEvents this - 1)%Z.
Proof.
  intros I E. cbn. unfold onPointerDownEvent. rewrite E.
  rewrite onMotionEvent_ignored by exact I.
  eexists. split; [reflexivity|]. cbn. repeat split; reflexivity.
Qed.

Lemma ignore_counter_step this c :
  (0 <= ignoreMotionEvents this <= 2)%Z ->
  (0 <= ignoreMotionEvents (after math this c) <= 2)%Z.
Proof.
  intros B.
  assert (M : forall t event a,
             (0 <= ignoreMotionEvents t <= 2)%Z ->
             (0 <= ignoreMotionEvents (after math t (OnMotionEvent event a)) <= 2)%Z).
  { intros t event a Bt. apply after_motion_cases.
    - exact Bt.
    - intros P. cbn. lia.
    - intros p _ _.
      destruct (motionUpdate_frame math t p event a) as (_ & _ & _ & _ & -> & _).
      exact Bt. }
  destruct c; try exact B.
  - apply M; exact B.
  - apply after_press_cases; [exact B|]. intros p _. apply M. exact B.
  - unfold after; cbn. unfold onKeyDownEvent.
    destruct (_deferredTurboMode this); exact B.
  - unfold after; cbn. unfold onKeyUpEvent.
    destruct (anyModifier (keyModifiers event)); cbn; [exact B|].
    destruct (InputState_eqb (_state this) eTurboMode); exact B.
  - unfold after; cbn. lia.
Qed.

(** X5. Throughout every session of a new tracker the number of motion events
    still to ignore lies between 0 and 2: it is never negative and never more
    than what [ignoreNextMotionEvents] sets. *)
Theorem ignore_counter_bounds calls :
  (0 <= ignoreMotionEvents (session math newInputTracker calls) <= 2)%Z.
Proof.
  assert (G : forall this, (0 <= ignoreMotionEvents this <= 2)%Z ->
                (0 <= ignoreMotionEvents (session math this calls) <= 2)%Z).
  { induction calls as [|c calls IH]; intros this B; [exact B|].
    change (session math this (c :: calls))
      with (session math (after math this c) calls).
    apply IH. apply ignore_counter_step. exact B. }
  apply G. cbn. lia.
Qed.

(** X6. A call emits at most one notification, and emits one exactly when it
    is a motion event or a press arriving while nothing is to be ignored; the
    notification then carries the absolute position the call leaves in the
    tracker. *)
Theorem emission_of_call this c this' emitted :
  perform math this c = Returns this' emitted ->
  emitted =
    if emits this c then [PointerMotion (_absolutePosition this')] else [].
Proof.
  assert (M : forall t event a t' out,
             onMotionEvent math t event a = Returns t' out ->
             out = if negb (0 <? ignoreMotionEvents t)%Z
                   then [PointerMotion (_absolutePosition t')] else []).
  { intros t event a t' out. unfold onMotionEvent.
    destruct (0 <? ignoreMotionEvents t)%Z; cbn.
    - intros [= <- <-]. reflexivity.
    - destruct (eventPosition event); [|discriminate].
      intros [= <- <-]. reflexivity. }
  destruct c; cbn; try (intros [= <- <-]; reflexivity).
  - apply M.
  - unfold onPointerDownEvent.
    destruct (eventPosition event); [|discriminate].
    intros O. apply M in O. exact O.
Qed.

Lemma configuration_step this c :
  writesConfiguration c = false ->
  dragThreshold (after math this c) = dragThreshold this
  /\ enableMarkingMode (after math this c) = enableMarkingMode this
  /\ enableTurboMode (after math this c) = enableTurboMode this.
Proof.
  intros W.
  assert (M : forall t event a,
             dragThreshold (after math t (OnMotionEvent event a)) = dragThreshold t
             /\ enableMarkingMode (after math t (OnMotionEvent event a))
                = enableMarkingMode t
             /\ enableTurboMode (after math t (OnMotionEvent event a))
                = enableTurboMode t).
  { intros t event a. apply after_motion_cases.
    - tauto.
    - intros _. cbn. tauto.
    - intros p _ _.
      destruct (motionUpdate_frame math t p event a)
        as (_ & _ & _ & _ & _ & -> & -> & ->). tauto. }
  destruct c; cbn in W; try discriminate; try (unfold after; cbn; tauto).
  - apply M.
  - apply after_press_cases; [tauto|]. intros p _.
    apply (M (set_state eClicked (set_clickPosition (Some p) this))).
  - unfold after; cbn. unfold onKeyDownEvent.
    destruct (_deferredTurboMode this); cbn; tauto.
  - unfold after; cbn. unfold onKeyUpEvent.
    destruct (anyModifier (keyModifiers event)); cbn; [tauto|].
    destruct (InputState_eqb (_state this) eTurboMode); cbn; tauto.
Qed.

(** X7. No handler writes the configuration: over a session without writes to
    the three public fields, [dragThreshold], [enableMarkingMode] and
    [enableTurboMode] keep their values. *)
Theorem configuration_kept calls : forall this,
  Forall (fun c => writesConfiguration c = false) calls ->
  dragThreshold (session math this calls) = dragThreshold this
  /\ enableMarkingMode (session math this calls) = enableMarkingMode this
  /\ enableTurboMode (session math this calls) = enableTurboMode this.
Proof.
  induction calls as [|c calls IH]; intros this F.
  - repeat split; reflexivity.
  - inversion F as [|? ? Hc Hcalls]; subst.
    change (session math this (c :: calls))
      with (session math (after math this c) calls).
    destruct (IH (after math this c) Hcalls) as (-> & -> & ->).
    apply configuration_step. exact Hc.
Qed.

Lemma update_polarConsistent this position a :
  polarConsistent math (update math this position a).
Proof. split; reflexivity. Qed.

Lemma polarConsistent_step this c :
  polarConsistent math this -> polarConsistent math (after math this c).
Proof.
  intros P.
  assert (U : forall t p event a, polarConsistent math (motionUpdate math t p event a)).
  { intros t p event a. unfold motionUpdate.
    repeat match goal with
      | |- context [if ?b then _ else _] => destruct b
      end; split; reflexivity. }
  assert (M : forall t event a, polarConsistent math t ->
             polarConsistent math (after math t (OnMotionEvent event a))).
  { intros t event a Pt. apply after_motion_cases.
    - exact Pt.
    - intros _. exact Pt.
    - intros p _ _. apply U. }
  destruct c; try exact P.
  - apply M; exact P.
  - apply after_press_cases; [exact P|]. intros p _. apply M. exact P.
  - unfold after; cbn. unfold onKeyDownEvent.
    destruct (_deferredTurboMode this); exact P.
  - unfold after; cbn. unfold onKeyUpEvent.
    destruct (anyModifier (keyModifiers event)); cbn; [exact P|].
    destruct (InputState_eqb (_state this) eTurboMode); exact P.
  - apply update_polarConsistent.
Qed.

(** X8. Once [update] has run, [_distance] and [_angle] are the length and the
    angle of [_relativePosition], and stay so through every later call: the
    three are only ever written together. *)
Theorem polar_fields_consistent this position a calls :
  polarConsistent math (session math (update math this position a) calls).
Proof.
  assert (G : forall t, polarConsistent math t ->
                polarConsistent math (session math t calls)).
  { induction calls as [|c calls IH]; intros t P; [exact P|].
    change (session math t (c :: calls)) with (session math (after math t c) calls).
    apply IH. apply polarConsistent_step. exact P. }
  apply G. apply update_polarConsistent.
Qed.

(** With marking mode disabled, a motion event does not lead into
    [eMarkingMode]. *)
Lemma marking_off_motion this event a :
  enableMarkingMode this = false ->
  _state this <> eMarkingMode ->
  _state (after math this (OnMotionEvent event a)) <> eMarkingMode.
Proof.
  intros E S. apply after_motion_cases; [exact S | intros _; exact S |].
  intros p _ _. rewrite motionUpdate_state. unfold promoted. rewrite E.
  destruct (turboTrigger math this p event);
    destruct (_state this), (clickPosition this) as [c|]; try congruence; cbn;
    repeat match goal with
      | |- context [PrimFloat.ltb ?u ?v] => destruct (PrimFloat.ltb u v); cbn
      | |- context [isMouseEvent ?e] => destruct (isMouseEvent e); cbn
      | |- context [noButtons ?e] => destruct (noButtons e); cbn
      end; congruence.
Qed.

(** X9. With marking mode disabled, the only way into [eMarkingMode] is a key
    release reporting no modifier, in turbo mode, with a non-null
    [clickPosition]: no motion event and no press leads there. *)
Theorem marking_disabled_entry this c :
  enableMarkingMode this = false ->
  _state this <> eMarkingMode ->
  _state (after math this c) = eMarkingMode ->
  exists released,
    c = OnKeyUpEvent released
    /\ anyModifier (keyModifiers released) = false
    /\ _state this = eTurboMode
    /\ hasClickPosition this = true.
Proof.
  intros E S A. destruct c;
    try (exfalso; revert A; unfold after; cbn; congruence).
  - exfalso. revert A. apply marking_off_motion; assumption.
  - exfalso. revert A. apply after_press_cases; [exact S|].
    intros p _. apply marking_off_motion; cbn; congruence.
  - exfalso. revert A. unfold after; cbn. unfold onKeyDownEvent.
    destruct (_deferredTurboMode this); cbn; exact S.
  - exists event. split; [reflexivity|].
    revert A. unfold after; cbn. unfold onKeyUpEvent, hasClickPosition.
    destruct (anyModifier (keyModifiers event)); cbn; [congruence|].
    destruct (_state this) eqn:St; cbn; rewrite ?St; try congruence.
    destruct (clickPosition this); cbn; [tauto | congruence].
Qed.

(** With marking mode disabled and outside turbo mode, no call leads into
    [eMarkingMode]. *)
Lemma marking_off_step this c :
  enableMarkingMode this = false ->
  _state this <> eMarkingMode ->
  _state this <> eTurboMode ->
  _state (after math this c) <> eMarkingMode.
Proof.
  intros E S NT. destruct c; try (unfold after; cbn; congruence).
  - apply marking_off_motion; assumption.
  - apply after_press_cases; [exact S|].
    intros p _. apply marking_off_motion; cbn; congruence.
  - unfold after; cbn. unfold onKeyDownEvent.
    destruct (_deferredTurboMode this); cbn; exact S.
  - unfold after; cbn. unfold onKeyUpEvent.
    destruct (anyModifier (keyModifiers event)); cbn; [exact S|].
    destruct (_state this) eqn:St; cbn; rewrite ?St; congruence.
Qed.

Lemma modes_off_step this c :
  enableTurboMode this = false ->
  enableMarkingMode this = false ->
  isDragging this = false ->
  c <> SetEnableTurboMode true ->
  c <> SetEnableMarkingMode true ->
  enableTurboMode (after math this c) = false
  /\ enableMarkingMode (after math this c) = false
  /\ isDragging (after math this c) = false.
Proof.
  intros T E D CT CM.
  assert (NT : _state this <> eTurboMode /\ _state this <> eMarkingMode).
  { unfold isDragging in D. destruct (_state this); cbn in D; split; congruence. }
  destruct NT as [NT NM].
  destruct (turbo_off_step math this c T NT CT) as [T' NT'].
  split; [exact T'|].
  assert (E' : enableMarkingMode (after math this c) = false).
  { destruct (writesConfiguration c) eqn:W.
    - destruct c; cbn in W; try discriminate; try exact E.
      destruct val; [congruence | reflexivity].
    - destruct (configuration_step this c W) as (_ & -> & _). exact E. }
  split; [exact E'|].
  pose proof (marking_off_step this c E NM NT) as NM'.
  unfold isDragging.
  destruct (_state (after math this c)); cbn; congruence.
Qed.

(** X10. With marking mode and turbo mode both disabled from the start and
    never switched on, the tracker never drags: throughout every session
    [isDragging] is false, the state being [eReleased] or [eClicked]. *)
Theorem no_mode_enabled_never_dragging calls :
  Forall (fun c => c <> SetEnableTurboMode true /\ c <> SetEnableMarkingMode true)
    calls ->
  isDragging
    (session math
       (set_enableMarkingMode false (set_enableTurboMode false newInputTracker))
       calls) = false.
Proof.
  intros F.
  assert (G : forall this,
             enableTurboMode this = false -> enableMarkingMode this = false ->
             isDragging this = false ->
             isDragging (session math this calls) = false).
  { induction F as [|c calls [CT CM] F IH]; intros this T E D; [exact D|].
    change (session math this (c :: calls))
      with (session math (after math this c) calls).
    destruct (modes_off_step this c T E D CT CM) as (T' & E' & D').
    apply IH; assumption. }
  apply G; reflexivity.
Qed.

(** X11. Only a press starts a click: a call that leaves the tracker in
    [eClicked] is a press, or found it in [eClicked]. *)
Theorem click_entered_only_by_press this c :
  _state (after math this c) = eClicked ->
  _state this = eClicked \/ exists event a, c = OnPointerDownEvent event a.
Proof.
  intros A. destruct c; try (right; do 2 eexists; reflexivity); left; revert A.
  - apply after_motion_cases; [tauto | intros _; cbn; tauto |].
    intros p _ _. rewrite motionUpdate_state. unfold promoted.
    destruct (turboTrigger math this p event);
      destruct (_state this), (clickPosition this) as [c|]; cbn;
      repeat match goal with
        | |- context [PrimFloat.ltb ?u ?v] => destruct (PrimFloat.ltb u v); cbn
        | |- context [enableMarkingMode this] => destruct (enableMarkingMode this); cbn
        | |- context [isMouseEvent ?e] => destruct (isMouseEvent e); cbn
        | |- context [noButtons ?e] => destruct (noButtons e); cbn
        end; congruence.
  - unfold after; cbn. congruence.
  - unfold after; cbn. unfold onKeyDownEvent.
    destruct (_deferredTurboMode this); cbn; tauto.
  - unfold after; cbn. unfold onKeyUpEvent.
    destruct (anyModifier (keyModifiers event)); cbn; [tauto|].
    destruct (_state this) eqn:St; cbn; rewrite ?St; try congruence.
    destruct (clickPosition this); cbn; congruence.
  - unfold after; cbn. tauto.
  - unfold after; cbn. tauto.
  - unfold after; cbn. tauto.
  - unfold after; cbn. tauto.
  - unfold after; cbn. tauto.
  - unfold after; cbn. tauto.
Qed.

(** X12. How turbo mode ends on a key release reporting no modifier is
    decided by the presses and releases of the session: [eMarkingMode] when
    [clickPosition] was non-null at the start and no release followed, or a
    press came after the last release; [eReleased] otherwise. *)
Theorem turbo_exit_follows_press_history this calls released :
  _state (session math this calls) = eTurboMode ->
  anyModifier (keyModifiers released) = false ->
  _state (session math this (calls ++ [OnKeyUpEvent released])) =
    if pressActiveFrom (hasClickPosition this) calls
    then eMarkingMode
    else eReleased.
Proof.
  intros S M. unfold session. rewrite fold_left_app. cbn [fold_left].
  fold (session math this calls).
  change (after math (session math this calls) (OnKeyUpEvent released))
    with (onKeyUpEvent (session math this calls) released).
  rewrite (onKeyUpEvent_turbo _ _ S M), hasClickPosition_session. reflexivity.
Qed.

(** X13. A [dragThreshold] that is NaN makes every comparison with it fail:
    a motion event that is not ignored always ends a click, and the distance
    from [keydownPosition] never triggers turbo mode, which only the modifier
    flags of the event can then enter. *)
Theorem nan_threshold this event a position :
  dragThreshold this = nan ->
  (ignoreMotionEvents this <= 0)%Z ->
  eventPosition event = Some position ->
  let this' := after math this (OnMotionEvent event a) in
  _state this' <> eClicked
  /\ (_state this <> eTurboMode ->
      (_state this' = eTurboMode <->
       enableTurboMode this && negb (_deferredTurboMode this)
       && anyModifier (eventModifiers event) = true)).
Proof.
  intros N I E this'. subst this'. unfold after; cbn [perform].
  rewrite (onMotionEvent_processed math this event a position I E).
  rewrite motionUpdate_state. unfold promoted, turboTrigger, gtb.
  rewrite N, ltb_nan_l.
  destruct (enableTurboMode this), (_deferredTurboMode this),
    (anyKeyPressed this), (anyModifier (eventModifiers event)); cbn;
    destruct (_state this), (clickPosition this) as [c|]; cbn;
    rewrite ?ltb_nan_r; cbn;
    repeat match goal with
      | |- context [enableMarkingMode this] => destruct (enableMarkingMode this); cbn
      | |- context [isMouseEvent ?e] => destruct (isMouseEvent e); cbn
      | |- context [noButtons ?e] => destruct (noButtons e); cbn
      end;
    (split; [congruence | intros NT; split; intros; congruence]).
Qed.

(** X14. Pointer motion alone starts nothing: a released tracker with no key
    held stays released through any run of motion events without modifier
    flags, ignored or not, with or without buttons. *)
Theorem plain_motion_stays_released calls : forall this,
  _state this = eReleased ->
  anyKeyPressed this = false ->
  Forall (fun c => plainMotion c = true) calls ->
  _state (session math this calls) = eReleased.
Proof.
  induction calls as [|c calls IH]; intros this S K F; [exact S|].
  inversion F as [|? ? Hc Hcalls]; subst.
  change (session math this (c :: calls))
    with (session math (after math this c) calls).
  destruct c; cbn in Hc; try discriminate.
  apply negb_true_iff in Hc.
  assert (Inv : _state (after math this (OnMotionEvent event activeItemPosition))
                = eReleased
                /\ anyKeyPressed (after math this (OnMotionEvent event activeItemPosition))
                   = false).
  { apply after_motion_cases; [tauto | intros _; cbn; tauto |].
    intros p _ _. split.
    - rewrite motionUpdate_state. unfold promoted, turboTrigger.
      rewrite S, K, Hc. cbn. rewrite !andb_false_r. cbn.
      destruct (isMouseEvent event); reflexivity.
    - rewrite <- K. apply (motionUpdate_frame math this). }
  destruct Inv as [S' K']. apply IH; assumption.
Qed.

End MoreTrackerFacts.

(** * Properties of the icon theme registry *)

Lemma map_get_set {V : Type} (key key' : string) (v : V) (m : JSMap V) :
  map_get key' (map_set key v m)
  = if String.eqb key key' then Some v else map_get key' m.
Proof.
  induction m as [|[k v0] m IH]; cbn.
  - destruct (String.eqb key key'); reflexivity.
  - destruct (String.eqb k key) eqn:K; cbn.
    + apply String.eqb_eq in K. subst k.
      destruct (String.eqb key key'); reflexivity.
    + rewrite IH.
      destruct (String.eqb k key') eqn:K'; [|reflexivity].
      apply String.eqb_eq in K'. subst key'.
      rewrite String.eqb_sym, K. reflexivity.
Qed.

Lemma map_keys_set_old {V : Type} (key : string) (v : V) (m : JSMap V) :
  In key (map_keys m) -> map_keys (map_set key v m) = map_keys m.
Proof.
  induction m as [|[k v0] m IH]; cbn; [tauto|].
  intros H. destruct (String.eqb k key) eqn:K; cbn; [reflexivity|].
  f_equal. apply IH. destruct H as [H|H]; [|exact H].
  subst k. rewrite String.eqb_refl in K. discriminate.
Qed.

Lemma map_keys_set_new {V : Type} (key : string) (v : V) (m : JSMap V) :
  ~ In key (map_keys m) -> map_keys (map_set key v m) = map_keys m ++ [key].
Proof.
  induction m as [|[k v0] m IH]; cbn; [reflexivity|].
  intros H. destruct (String.eqb k key) eqn:K; cbn.
  - apply String.eqb_eq in K. tauto.
  - f_equal. apply IH. tauto.
Qed.

Lemma find_last {A : Type} (p : A -> bool) (l : list A) (a : A) :
  find p (rev (a :: l))
  = match find p (rev l) with
    | Some b => Some b
    | None => if p a then Some a else None
    end.
Proof.
  cbn [rev]. generalize (rev l) as r. intros r.
  induction r as [|b r IH]; cbn; [reflexivity|].
  destruct (p b); [reflexivity | exact IH].
Qed.

Section RegistryFacts.

Variable FileIconThemeDescription : Type.
Variable name : FileIconThemeDescription -> string.

(** Looking a key up after the themes of a list were set in turn: the last
    theme of that name, else what the map held. *)
Lemma map_get_themes_set themes : forall (m : JSMap (IIconTheme FileIconThemeDescription)) key,
  map_get key
    (fold_left (fun m theme => map_set (name theme) (FileIconTheme _ theme) m)
       themes m)
  = match find (fun theme => String.eqb (name theme) key) (rev themes) with
    | Some theme => Some (FileIconTheme _ theme)
    | None => map_get key m
    end.
Proof.
  induction themes as [|t themes IH]; intros m key; [reflexivity|].
  cbn [fold_left]. rewrite IH, find_last.
  destruct (find (fun theme => String.eqb (name theme) key) (rev themes));
    [reflexivity|].
  rewrite map_get_set. destruct (String.eqb (name t) key); reflexivity.
Qed.

(** The keys after the themes of a list were set in turn: the old keys in
    their places, then new ones, without repetition. *)
Lemma map_keys_themes_set themes : forall (m : JSMap (IIconTheme FileIconThemeDescription)),
  NoDup (map_keys m) ->
  exists added,
    map_keys
      (fold_left (fun m theme => map_set (name theme) (FileIconTheme _ theme) m)
         themes m)
    = map_keys m ++ added
    /\ NoDup (map_keys m ++ added)
    /\ forall key, In key added <->
                   (~ In key (map_keys m) /\ exists t, In t themes /\ name t = key).
Proof.
  induction themes as [|t themes IH]; intros m N.
  - exists []. rewrite app_nil_r. split; [reflexivity|]. split; [exact N|].
    intros key. cbn. split; [tauto | intros (_ & t & [] & _)].
  - cbn [fold_left].
    destruct (in_dec string_dec (name t) (map_keys m)) as [I|I].
    + destruct (IH (map_set (name t) (FileIconTheme _ t) m)) as (added & K & N' & M).
      { rewrite map_keys_set_old by exact I. exact N. }
      rewrite map_keys_set_old in K, N', M by exact I.
      exists added. split; [exact K|]. split; [exact N'|].
      intros key. rewrite M. split.
      * intros (H & t' & Ht & Hn). split; [exact H|]. exists t'. cbn. tauto.
      * intros (H & t' & [Ht|Ht] & Hn); (split; [exact H|]).
        -- subst t'. subst key. contradiction.
        -- exists t'. tauto.
    + destruct (IH (map_set (name t) (FileIconTheme _ t) m)) as (added & K & N' & M).
      { rewrite map_keys_set_new by exact I.
        apply NoDup_app; [exact N | repeat constructor; cbn; tauto |].
        intros k Hk [<-|[]]. contradiction. }
      rewrite map_keys_set_new in K, N', M by exact I.
      rewrite <- app_assoc in K, N'.
      exists ([name t] ++ added). split; [exact K|]. split; [exact N'|].
      intros key. cbn [app In]. rewrite M. split.
      * intros [<-|(H & t' & Ht & Hn)].
        -- split; [exact I|]. exists t. cbn. tauto.
        -- split; [intros Hk; apply H; apply in_or_app; tauto|].
           exists t'. cbn. tauto.
      * intros (H & t' & [Ht|Ht] & Hn).
        -- subst t'. tauto.
        -- destruct (string_dec (name t) key) as [Eq|Ne]; [tauto|].
           right. split.
           ++ intros Hk. apply in_app_or in Hk. cbn in Hk. tauto.
           ++ exists t'. tauto.
Qed.

(** The map the constructor builds. *)
Lemma newIconThemeRegistry_themes :
  iconThemes _ (newIconThemeRegistry FileIconThemeDescription)
  = [("simple-icons", SimpleIconsTheme _);
     ("simple-icons-colored", SimpleIconsColoredTheme _);
     ("material-symbols-rounded", MaterialSymbolsTheme _);
     ("emoji", EmojiTheme _)].
Proof. reflexivity. Qed.

(** X15. [getTheme] after the file icon themes have arrived: a key names the
    last reported theme of that name, also when the name is that of a built-in
    theme, which it then replaces; any other key resolves as before. *)
Theorem getTheme_after_themes_received
    (this : IconThemeRegistry FileIconThemeDescription) info key :
  getTheme _ (iconThemesReceived _ name this info) key
  = match find (fun theme => String.eqb (name theme) key)
            (rev (fileIconThemes _ info)) with
    | Some theme => FileIconTheme _ theme
    | None => getTheme _ this key
    end.
Proof.
  unfold getTheme, iconThemesReceived; cbn.
  rewrite map_get_themes_set.
  destruct (find (fun theme => String.eqb (name theme) key)
              (rev (fileIconThemes _ info))); reflexivity.
Qed.

(** X16. A key that is neither one of the four built-in keys nor the name of a
    reported file icon theme resolves to the fallback theme. *)
Theorem getTheme_unknown_key info key :
  ~ In key builtinKeys ->
  (forall theme, In theme (fileIconThemes _ info) -> name theme <> key) ->
  getTheme _ (iconThemesReceived _ name (newIconThemeRegistry _) info) key
  = FallbackTheme _.
Proof.
  intros B F. unfold getTheme, iconThemesReceived; cbn [iconThemes fallbackTheme].
  rewrite map_get_themes_set.
  destruct (find (fun theme => String.eqb (name theme) key)
              (rev (fileIconThemes _ info))) as [t|] eqn:E.
  - apply find_some in E. destruct E as [I N].
    apply in_rev in I. apply String.eqb_eq in N. exfalso. exact (F t I N).
  - rewrite newIconThemeRegistry_themes. cbn [map_get]. cbn in B.
    repeat match goal with
      | |- context [String.eqb ?s key] =>
          destruct (String.eqb s key) eqn:?;
          [ match goal with H : String.eqb _ key = true |- _ =>
              apply String.eqb_eq in H; exfalso; tauto end | ]
      end.
    reflexivity.
Qed.

(** X17. The map [getThemes] returns after the file icon themes have arrived
    has no key twice, begins with the four built-in keys in the order of their
    registration, and has as keys exactly the built-in keys and the names of
    the reported themes. *)
Theorem getThemes_keys info :
  let keys :=
    map_keys (getThemes _ (iconThemesReceived _ name (newIconThemeRegistry _) info)) in
  NoDup keys
  /\ firstn 4 keys = builtinKeys
  /\ forall key,
       In key keys <->
       (In key builtinKeys
        \/ exists theme, In theme (fileIconThemes _ info) /\ name theme = key).
Proof.
  cbv zeta. unfold getThemes, iconThemesReceived; cbn [iconThemes].
  destruct (map_keys_themes_set (fileIconThemes _ info)
              (iconThemes _ (newIconThemeRegistry _))) as (added & K & N & M).
  { rewrite newIconThemeRegistry_themes. cbn.
    repeat constructor; cbn; intuition discriminate. }
  rewrite newIconThemeRegistry_themes in K, N, M.
  change (map_keys [("simple-icons", SimpleIconsTheme FileIconThemeDescription);
                    ("simple-icons-colored", SimpleIconsColoredTheme _);
                    ("material-symbols-rounded", MaterialSymbolsTheme _);
                    ("emoji", EmojiTheme _)])
    with builtinKeys in K, N, M.
  match goal with
  | |- NoDup ?k /\ _ =>
      assert (Hk : k = (builtinKeys ++ added)%list) by exact K; rewrite Hk
  end.
  split; [exact N|]. split; [reflexivity|].
  intros key. rewrite in_app_iff, M.
  destruct (in_dec string_dec key builtinKeys); tauto.
Qed.

End RegistryFacts.

(** ** Witnesses of the further properties *)

Lemma deferred_turbo_mode_never_entered_witness :
  let this := set_deferredTurboMode true newInputTracker in
  let calls :=
    [OnKeyDownEvent; OnMotionEvent (MouseEvent 100 0 0 withCtrl) None;
     OnKeyUpEvent (keyUp withCtrl)] in
  _deferredTurboMode this = true
  /\ _state this <> eTurboMode
  /\ Forall (fun c => keepsDeferral c = true) calls
  /\ _state (session math_ts this calls) <> eTurboMode.
Proof.
  cbv zeta.
  assert (D : _deferredTurboMode (set_deferredTurboMode true newInputTracker) = true)
    by reflexivity.
  assert (S : _state (set_deferredTurboMode true newInputTracker) <> eTurboMode)
    by (cbn; discriminate).
  assert (F : Forall (fun c => keepsDeferral c = true)
                [OnKeyDownEvent; OnMotionEvent (MouseEvent 100 0 0 withCtrl) None;
                 OnKeyUpEvent (keyUp withCtrl)])
    by (repeat constructor).
  repeat (split; [assumption|]).
  exact (deferred_turbo_mode_never_entered math_ts _ _ D S F).
Defined.

Lemma full_key_release_arms_turbo_mode_witness :
  let this := set_deferredTurboMode true newInputTracker in
  anyModifier (keyModifiers (keyUp noModifiers)) = false
  /\ enableTurboMode this = true
  /\ (ignoreMotionEvents this <= 0)%Z
  /\ eventPosition (mouseAt 100 0 0) = Some (vec2 100 0)
  /\ gtb (getDistance math_ts (vec2 100 0) (_absolutePosition this))
         (dragThreshold this) = true
  /\ _state (session math_ts this
               [OnKeyUpEvent (keyUp noModifiers); OnKeyDownEvent;
                OnMotionEvent (mouseAt 100 0 0) None]) = eTurboMode.
Proof.
  cbv zeta.
  assert (I : (ignoreMotionEvents (set_deferredTurboMode true newInputTracker) <= 0)%Z)
    by (cbn; lia).
  assert (G : gtb (getDistance math_ts (vec2 100 0)
                     (_absolutePosition (set_deferredTurboMode true newInputTracker)))
                (dragThreshold (set_deferredTurboMode true newInputTracker)) = true)
    by (vm_compute; reflexivity).
  split; [reflexivity|]. split; [reflexivity|]. split; [exact I|].
  split; [reflexivity|]. split; [exact G|].
  exact (full_key_release_arms_turbo_mode math_ts
           (set_deferredTurboMode true newInputTracker) (keyUp noModifiers)
           (mouseAt 100 0 0) None (vec2 100 0) eq_refl eq_refl I eq_refl G).
Defined.

Lemma turbo_mode_kept_witness :
  let this :=
    session math_ts newInputTracker
      [OnMotionEvent (MouseEvent 100 0 0 withCtrl) None] in
  let calls :=
    [OnMotionEvent (mouseAt 120 0 0) None; SetEnableTurboMode false;
     OnKeyUpEvent (keyUp withCtrl); OnMotionEvent (touchAt 5 5) None] in
  _state this = eTurboMode
  /\ Forall (fun c => keepsTurbo c = true) calls
  /\ _state (session math_ts this calls) = eTurboMode.
Proof.
  cbv zeta.
  assert (S : _state (session math_ts newInputTracker
                        [OnMotionEvent (MouseEvent 100 0 0 withCtrl) None])
              = eTurboMode)
    by (vm_compute; reflexivity).
  assert (F : Forall (fun c => keepsTurbo c = true)
                [OnMotionEvent (mouseAt 120 0 0) None; SetEnableTurboMode false;
                 OnKeyUpEvent (keyUp withCtrl); OnMotionEvent (touchAt 5 5) None])
    by (repeat constructor).
  split; [exact S|]. split; [exact F|].
  exact (turbo_mode_kept math_ts _ _ S F).
Defined.

Lemma press_while_ignoring_witness :
  let this := ignoreNextMotionEvents newInputTracker in
  (0 < ignoreMotionEvents this)%Z
  /\ eventPosition (mouseAt 40 30 1) = Some (vec2 40 30)
  /\ exists this',
       perform math_ts this (OnPointerDownEvent (mouseAt 40 30 1) None)
         = Returns this' []
       /\ _state this' = eClicked
       /\ clickPosition this' = Some (vec2 40 30)
       /\ _absolutePosition this' = _absolutePosition this
       /\ ignoreMotionEvents this' = (ignoreMotionEvents this - 1)%Z.
Proof.
  cbv zeta.
  assert (I : (0 < ignoreMotionEvents (ignoreNextMotionEvents newInputTracker))%Z)
    by (cbn; lia).
  split; [exact I|]. split; [reflexivity|].
  exact (press_while_ignoring math_ts _ (mouseAt 40 30 1) None (vec2 40 30) I eq_refl).
Defined.

Lemma emission_of_call_witness :
  let c := OnMotionEvent (mouseAt 10 20 0) None in
  let this' := after math_ts newInputTracker c in
  perform math_ts newInputTracker c = Returns this' [PointerMotion (vec2 10 20)]
  /\ [PointerMotion (vec2 10 20)] =
       if emits newInputTracker c
       then [PointerMotion (_absolutePosition this')]
       else [].
Proof.
  cbv zeta.
  assert (P : perform math_ts newInputTracker (OnMotionEvent (mouseAt 10 20 0) None)
              = Returns
                  (after math_ts newInputTracker
                     (OnMotionEvent (mouseAt 10 20 0) None))
                  [PointerMotion (vec2 10 20)])
    by (vm_compute; reflexivity).
  split; [exact P|].
  exact (emission_of_call math_ts _ _ _ _ P).
Defined.

Lemma configuration_kept_witness :
  let calls :=
    [OnPointerDownEvent (mouseAt 100 100 1) None;
     OnMotionEvent (mouseAt 130 100 1) None; OnPointerUpEvent;
     SetDeferredTurboMode true; OnKeyDownEvent] in
  Forall (fun c => writesConfiguration c = false) calls
  /\ dragThreshold (session math_ts newInputTracker calls)
     = dragThreshold newInputTracker
  /\ enableMarkingMode (session math_ts newInputTracker calls)
     = enableMarkingMode newInputTracker
  /\ enableTurboMode (session math_ts newInputTracker calls)
     = enableTurboMode newInputTracker.
Proof.
  cbv zeta.
  assert (F : Forall (fun c => writesConfiguration c = false)
                [OnPointerDownEvent (mouseAt 100 100 1) None;
                 OnMotionEvent (mouseAt 130 100 1) None; OnPointerUpEvent;
                 SetDeferredTurboMode true; OnKeyDownEvent])
    by (repeat constructor).
  split; [exact F|].
  exact (configuration_kept math_ts _ newInputTracker F).
Defined.

Lemma marking_disabled_entry_witness :
  let this :=
    session math_ts (set_enableMarkingMode false newInputTracker)
      [OnMotionEvent (MouseEvent 100 0 0 withCtrl) None] in
  let c := OnKeyUpEvent (keyUp noModifiers) in
  enableMarkingMode this = false
  /\ _state this <> eMarkingMode
  /\ _state (after math_ts this c) = eMarkingMode
  /\ exists released,
       c = OnKeyUpEvent released
       /\ anyModifier (keyModifiers released) = false
       /\ _state this = eTurboMode
       /\ hasClickPosition this = true.
Proof.
  cbv zeta.
  assert (E : enableMarkingMode
                (session math_ts (set_enableMarkingMode false newInputTracker)
                   [OnMotionEvent (MouseEvent 100 0 0 withCtrl) None]) = false)
    by (vm_compute; reflexivity).
  assert (S : _state
                (session math_ts (set_enableMarkingMode false newInputTracker)
                   [OnMotionEvent (MouseEvent 100 0 0 withCtrl) None])
              <> eMarkingMode)
    by (vm_compute; discriminate).
  assert (A : _state
                (after math_ts
                   (session math_ts (set_enableMarkingMode false newInputTracker)
                      [OnMotionEvent (MouseEvent 100 0 0 withCtrl) None])
                   (OnKeyUpEvent (keyUp noModifiers))) = eMarkingMode)
    by (vm_compute; reflexivity).
  split; [exact E|]. split; [exact S|]. split; [exact A|].
  exact (marking_disabled_entry math_ts _ _ E S A).
Defined.

Lemma no_mode_enabled_never_dragging_witness :
  let calls :=
    [OnKeyDownEvent; OnPointerDownEvent (MouseEvent 100 100 1 withCtrl) None;
     OnMotionEvent (MouseEvent 150 100 1 withCtrl) None;
     OnKeyUpEvent (keyUp noModifiers)] in
  Forall (fun c => c <> SetEnableTurboMode true /\ c <> SetEnableMarkingMode true)
    calls
  /\ isDragging
       (session math_ts
          (set_enableMarkingMode false (set_enableTurboMode false newInputTracker))
          calls) = false.
Proof.
  cbv zeta.
  assert (F : Forall
                (fun c => c <> SetEnableTurboMode true
                          /\ c <> SetEnableMarkingMode true)
                [OnKeyDownEvent;
                 OnPointerDownEvent (MouseEvent 100 100 1 withCtrl) None;
                 OnMotionEvent (MouseEvent 150 100 1 withCtrl) None;
                 OnKeyUpEvent (keyUp noModifiers)])
    by (repeat constructor; discriminate).
  split; [exact F|].
  exact (no_mode_enabled_never_dragging math_ts _ F).
Defined.

Lemma click_entered_only_by_press_witness :
  let c := OnPointerDownEvent (touchAt 10 20) None in
  _state (after math_ts newInputTracker c) = eClicked
  /\ (_state newInputTracker = eClicked
      \/ exists event a, c = OnPointerDownEvent event a).
Proof.
  cbv zeta.
  assert (A : _state (after math_ts newInputTracker
                        (OnPointerDownEvent (touchAt 10 20) None)) = eClicked)
    by (vm_compute; reflexivity).
  split; [exact A|].
  exact (click_entered_only_by_press math_ts _ _ A).
Defined.

Lemma turbo_exit_follows_press_history_witness :
  let calls :=
    [OnPointerDownEvent (mouseAt 100 100 1) None; OnPointerUpEvent;
     OnMotionEvent (MouseEvent 100 0 0 withCtrl) None] in
  _state (session math_ts newInputTracker calls) = eTurboMode
  /\ anyModifier (keyModifiers (keyUp noModifiers)) = false
  /\ _state (session math_ts newInputTracker
               (calls ++ [OnKeyUpEvent (keyUp noModifiers)])) = eReleased.
Proof.
  cbv zeta.
  assert (S : _state (session math_ts newInputTracker
                        [OnPointerDownEvent (mouseAt 100 100 1) None;
                         OnPointerUpEvent;
                         OnMotionEvent (MouseEvent 100 0 0 withCtrl) None])
              = eTurboMode)
    by (vm_compute; reflexivity).
  split; [exact S|]. split; [reflexivity|].
  exact (turbo_exit_follows_press_history math_ts newInputTracker _
           (keyUp noModifiers) S eq_refl).
Defined.

Lemma nan_threshold_witness :
  let this :=
    session math_ts (set_dragThreshold nan newInputTracker)
      [OnPointerDownEvent (mouseAt 100 100 1) None] in
  let event := mouseAt 100 100 1 in
  dragThreshold this = nan
  /\ (ignoreMotionEvents this <= 0)%Z
  /\ eventPosition event = Some (vec2 100 100)
  /\ _state (after math_ts this (OnMotionEvent event None)) <> eClicked
  /\ (_state this <> eTurboMode ->
      (_state (after math_ts this (OnMotionEvent event None)) = eTurboMode <->
       enableTurboMode this && negb (_deferredTurboMode this)
       && anyModifier (eventModifiers event) = true)).
Proof.
  cbv zeta.
  assert (N : dragThreshold
                (session math_ts (set_dragThreshold nan newInputTracker)
                   [OnPointerDownEvent (mouseAt 100 100 1) None]) = nan)
    by (vm_compute; reflexivity).
  assert (I : (ignoreMotionEvents
                 (session math_ts (set_dragThreshold nan newInputTracker)
                    [OnPointerDownEvent (mouseAt 100 100 1) None]) <= 0)%Z)
    by (vm_compute; discriminate).
  split; [exact N|]. split; [exact I|]. split; [reflexivity|].
  exact (nan_threshold math_ts _ (mouseAt 100 100 1) None (vec2 100 100) N I eq_refl).
Defined.

Lemma getTheme_unknown_key_witness :
  let info :=
    {| userIconDirectory := "/home/user/icon-themes";
       fileIconThemes := [sampleTheme "papirus"; sampleTheme "emoji"] |} in
  ~ In "breeze" builtinKeys
  /\ (forall theme, In theme (fileIconThemes _ info) -> fst theme <> "breeze")
  /\ getTheme _ (iconThemesReceived _ fst (newIconThemeRegistry _) info) "breeze"
     = FallbackTheme _.
Proof.
  cbv zeta.
  assert (B : ~ In "breeze" builtinKeys)
    by (cbn; intuition discriminate).
  assert (F : forall theme : string * string,
             In theme
               (fileIconThemes _
                  {| userIconDirectory := "/home/user/icon-themes";
                     fileIconThemes := [sampleTheme "papirus"; sampleTheme "emoji"] |}) ->
             fst theme <> "breeze")
    by (cbn; intros theme [<-|[<-|[]]]; cbn; discriminate).
  split; [exact B|]. split; [exact F|].
  exact (getTheme_unknown_key _ fst _ "breeze" B F).
Defined.

Lemma plain_motion_stays_released_witness :
  let calls :=
    [OnMotionEvent (mouseAt 300 40 0) None; OnMotionEvent (touchAt 10 500) None;
     OnMotionEvent (mouseAt 0 0 1) None] in
  _state newInputTracker = eReleased
  /\ anyKeyPressed newInputTracker = false
  /\ Forall (fun c => plainMotion c = true) calls
  /\ _state (session math_ts newInputTracker calls) = eReleased.
Proof.
  cbv zeta.
  assert (F : Forall (fun c => plainMotion c = true)
                [OnMotionEvent (mouseAt 300 40 0) None;
                 OnMotionEvent (touchAt 10 500) None;
                 OnMotionEvent (mouseAt 0 0 1) None])
    by (repeat constructor).
  split; [reflexivity|]. split; [reflexivity|]. split; [exact F|].
  exact (plain_motion_stays_released math_ts _ newInputTracker eq_refl eq_refl F).
Defined.
